(** * alf.environments.suite_safety_gym

    A shallow embedding of the Safety Gym suite of ALF
    ([alf/environments/suite_safety_gym.py]) and the properties of its
    three adapters: the info normaliser [CompleteEnvInfo], the reward
    vectoriser [VectorReward] and the loader [load].

    Modelling choices.
    - A Python [dict] with string keys is a [gmap string _]; the content of
      the dict is what matters here (key set and values), not its
      insertion order.
    - Python integers are [Z].  Floating-point numbers are kept abstract: a
      carrier [num] with the operations the module uses (conversion from an
      integer, unary minus, the cast to [np.float32] and the constant
      [float('inf')]).  Every theorem holds for each interpretation of them.
    - Code that can raise returns in [exn + _]; the simulator is stateful, so
      a [step] is a computation in a state-and-exception monad over the
      simulator state. *)

From Stdlib Require Import ZArith String SpecFloat.
From stdpp Require Import gmap strings list fin_maps.

Local Open Scope string_scope.
Local Open Scope Z_scope.

(** ** Python strings: the [in] operator *)

(** [needle in haystack] for two [str]: true iff [needle] occurs as a
    contiguous block of [haystack].  The scan tries every start position
    from the left. *)
Fixpoint str_in (needle haystack : string) : bool :=
  String.prefix needle haystack
  || match haystack with
     | EmptyString => false
     | String _ rest => str_in needle rest
     end.

(** ** Exceptions and the step monad *)

Inductive exn : Type :=
| KeyError (key : string)      (* [d[key]] on a dict without [key] *)
| NameError (name : string)    (* an unbound global name *)
| ImportError (name : string)  (* [import name] did not find the module *)
| OverflowError                (* an [int] too large to convert to float *)
| OtherError (cls : string).   (* any other exception class *)

Definition is_lookup_error (e : exn) : bool :=
  match e with
  | KeyError _ => true
  | _ => false
  end.

(** A computation over a store [S] that returns an [A] or raises. *)
Definition M (S A : Type) : Type := S → (exn + A) * S.

Definition ret {S A} (a : A) : M S A := λ s, (inr a, s).
Definition raise {S A} (e : exn) : M S A := λ s, (inl e, s).
Definition bind {S A B} (c : M S A) (k : A → M S B) : M S B :=
  λ s, match c s with
       | (inr a, s') => k a s'
       | (inl e, s') => (inl e, s')
       end.

(** A pure operation that returns or raises, run inside a computation. *)
Definition lift {S A} (r : exn + A) : M S A := λ s, (r, s).

Notation "'do' x <- c ;; k" := (bind c (λ x, k))
  (at level 10, x name, c at level 99, k at level 200,
   format "'[v' 'do'  x  <-  c  ;;  '/' k ']'").
Notation "'do' ' pat <- c ;; k" :=
  (bind c (λ x, match x with pat => k end))
  (at level 10, pat pattern, c at level 99, k at level 200,
   format "'[v' 'do'  ' pat  <-  c  ;;  '/' k ']'").

(** ** Numbers *)

(** The floating-point carrier and the operations the module uses. *)
Class Floats (num : Type) : Type := {
  of_int : Z → num;        (* the float nearest to an integer [i] *)
  int_overflows : Z → bool;  (* [i] is too large: [float(i)] raises *)
  fneg : num → num;        (* unary minus on a float *)
  float32 : num → num;     (* the cast to [np.float32] *)
  float_inf : num;         (* [float('inf')] *)
}.

Section Values.

Context {num : Type} `{!Floats num}.

(** The values an info dict holds: [bool], [int] or a float. *)
Inductive value : Type :=
| VBool (b : bool)
| VInt (i : Z)
| VFloat (x : num).

(** Python's unary minus: a [bool] is an [int] there. *)
Definition py_neg (v : value) : value :=
  match v with
  | VBool b => VInt (- Z.b2z b)
  | VInt i => VInt (- i)
  | VFloat x => VFloat (fneg x)
  end.

(** Python's [float(v)]: an [int] is rounded to the nearest float, and
    [OverflowError] is raised when it is too large for one.  [True] and
    [False] are the ints 1 and 0. *)
Definition py_float (v : value) : exn + num :=
  match v with
  | VBool b => inr (of_int (Z.b2z b))
  | VInt i => if int_overflows i then inl OverflowError else inr (of_int i)
  | VFloat x => inr x
  end.

(** The cast [np.array(_, dtype=np.float32)] applies to each element: the
    element is converted as by [float] and the result is cast to float32
    (a float out of the float32 range becomes an infinity). *)
Definition np_float32 (v : value) : exn + num :=
  match py_float v with
  | inl e => inl e
  | inr x => inr (float32 x)
  end.

(** [np.array(l, dtype=np.float32)] for a list of scalars: a 1-d array,
    filled from the left. *)
Fixpoint np_array_float32 (l : list value) : exn + list num :=
  match l with
  | [] => inr []
  | v :: l' =>
      match np_float32 v with
      | inl e => inl e
      | inr x =>
          match np_array_float32 l' with
          | inl e => inl e
          | inr xs => inr (x :: xs)
          end
      end
  end.

(** ** Dicts *)

(** [d[key]], raising [KeyError] when [key] is absent. *)
Definition getitem {S} (d : gmap string value) (key : string) : M S value :=
  match d !! key with
  | Some v => ret v
  | None => raise (KeyError key)
  end.

(** [d.update(other)]: every item of [other] is stored into [d], so [other]
    wins where both have the key. *)
Definition dict_update (d other : gmap string value) : gmap string value :=
  other ∪ d.

(** [copy.copy(d)]: a new dict with the same items.  Dicts are values here,
    so the copy is the dict itself; what the copy buys in Python (the
    original is not touched by a later [update]) holds by construction. *)
Definition copy_copy (d : gmap string value) : gmap string value := d.

End Values.

Arguments value : clear implicits.

(** ** The gym environment interface *)

Section Interface.

Context {num action obs St : Type}.

(** [gym.spaces.Box(low, high, shape)]. *)
Record Box : Type := mkBox {
  low : num;
  high : num;
  shape : list Z;
}.

(** What the suite uses of a gym environment whose reward has type [R]:
    [step], the attribute [num_steps], and the attribute [reward_space]
    ([None] when the object has no such attribute). *)
Record GymEnv (R : Type) : Type := mkGymEnv {
  env_step : action → M St (obs * R * bool * gmap string (value num));
  env_num_steps : Z;
  env_reward_space : option Box;
}.

End Interface.

Arguments Box : clear implicits.
Arguments GymEnv : clear implicits.
Arguments mkGymEnv {num action obs St R}.
Arguments env_step {num action obs St R}.
Arguments env_num_steps {num action obs St R}.
Arguments env_reward_space {num action obs St R}.

(** ** class CompleteEnvInfo(gym.Wrapper) *)

Module CompleteEnvInfo.
Section CompleteEnvInfo.

Context {num : Type} `{!Floats num} {action obs St R : Type}.

Definition base_keys : list string :=
  ["cost_exception"; "goal_met"; "cost"].

Definition constraint_keys : list string :=
  ["cost_vases_contact"; "cost_pillars"; "cost_buttons";
   "cost_gremlins"; "cost_vases_displace"; "cost_vases_velocity";
   "cost_hazards"].

Record t : Type := mk {
  env : GymEnv num action obs St R;
  _env_info_keys : list string;
  _default_env_info : gmap string (value num);
}.

Definition _is_level0_env (env_name : string) : bool :=
  str_in "0-v" env_name.

(** The loop body of [_generate_default_env_info]. *)
Definition default_value (key : string) : value num :=
  if String.eqb key "goal_met" then VBool false
  else VFloat (float32 (of_int 0)).

Definition _generate_default_env_info (keys : list string)
  : gmap string (value num) :=
  foldl (λ env_info key, <[key := default_value key]> env_info) ∅ keys.

Definition __init__ (env : GymEnv num action obs St R)
           (env_name : string) : t :=
  let keys := base_keys in
  let keys :=
    if negb (_is_level0_env env_name) then (keys ++ constraint_keys)%list
    else keys in
  mk env keys (_generate_default_env_info keys).

Definition step (self : t) (a : action)
  : M St (obs * R * bool * gmap string (value num)) :=
  let env_info := copy_copy (_default_env_info self) in
  do '(o, reward, done, info) <- env_step (env self) a ;;
  let env_info := dict_update env_info info in
  ret (o, reward, done, env_info).

(** The wrapper seen as an environment again: [step] is overridden, every
    other attribute is looked up in the wrapped environment
    ([gym.Wrapper.__getattr__]). *)
Definition as_env (self : t) : GymEnv num action obs St R :=
  mkGymEnv (step self) (env_num_steps (env self))
           (env_reward_space (env self)).

End CompleteEnvInfo.

Arguments t : clear implicits.

End CompleteEnvInfo.

(** ** class VectorReward(gym.Wrapper) *)

Module VectorReward.
Section VectorReward.

Context {num : Type} `{!Floats num} {action obs St : Type}.

Definition REWARD_DIMENSION : Z := 3.

Record t : Type := mk {
  env : GymEnv num action obs St num;
  _reward_space : Box num;
}.

Definition __init__ (env : GymEnv num action obs St num) : t :=
  mk env (mkBox (fneg float_inf) float_inf [REWARD_DIMENSION]).

Definition step (self : t) (a : action)
  : M St (obs * list num * bool * gmap string (value num)) :=
  do '(o, reward, done, info) <- env_step (env self) a ;;
  do cost <- getitem info "cost" ;;
  let cost_reward := py_neg cost in
  do goal_met <- getitem info "goal_met" ;;
  do success_reward <- lift (py_float goal_met) ;;
  do reward <- lift (np_array_float32
                       [VFloat reward; cost_reward; VFloat success_reward]) ;;
  ret (o, reward, done, info).

(** The property [reward_space]. *)
Definition reward_space (self : t) : Box num := _reward_space self.

(** The wrapper seen as an environment: [step] and [reward_space] are its
    own, [num_steps] is looked up in the wrapped environment. *)
Definition as_env (self : t) : GymEnv num action obs St (list num) :=
  mkGymEnv (step self) (env_num_steps (env self))
           (Some (reward_space self)).

End VectorReward.

Arguments t : clear implicits.

End VectorReward.

(** ** Module level: the optional imports and [is_available] *)

(** What a global name of the module can be bound to. *)
Inductive pyobj : Type :=
| PyNone
| PyModule (name : string).

Definition is_not_None (o : pyobj) : bool :=
  match o with
  | PyNone => false
  | PyModule _ => true
  end.

Section ModuleLevel.

(** The interpreter's view of the installed packages: [importer name] is
    [None] when [import name] succeeds and [Some e] when it raises [e]. *)
Context (importer : string → option exn).

(** [import name]: binds [name] in the module's globals, or raises. *)
Definition import_ (name : string) : M (gmap string pyobj) unit :=
  λ g, match importer name with
       | None => (inr tt, <[name := PyModule name]> g)
       | Some e => (inl e, g)
       end.

(** [name = v] at module level. *)
Definition assign (name : string) (v : pyobj) : M (gmap string pyobj) unit :=
  λ g, (inr tt, <[name := v]> g).

(** Reading a global name. *)
Definition load_global (name : string) : M (gmap string pyobj) pyobj :=
  λ g, match g !! name with
       | Some v => (inr v, g)
       | None => (inl (NameError name), g)
       end.

(** [try: body except ImportError: handler]. *)
Definition try_except_ImportError {S A} (body handler : M S A) : M S A :=
  λ s, match body s with
       | (inl (ImportError _), s') => handler s'
       | r => r
       end.

(** Lines 39-44: the guarded imports run when the module is loaded. *)
Definition module_imports : M (gmap string pyobj) unit :=
  try_except_ImportError
    (do _ <- import_ "mujoco_py" ;;
     import_ "safety_gym")
    (do _ <- assign "mujoco_py" PyNone ;;
     assign "safety_gym" PyNone).

(** [and] evaluates its right operand only when the left one is true. *)
Definition is_available : M (gmap string pyobj) bool :=
  do m <- load_global "mujoco_py" ;;
  if is_not_None m then
    do s <- load_global "safety_gym" ;;
    ret (is_not_None s)
  else ret false.

End ModuleLevel.

(** ** load *)

Section Load.

Context {num : Type} `{!Floats num} {action obs St : Type}.
Context {EnvId Discount GymWrappers AlfWrappers AlfEnvironment : Type}.

(** The simulator as the suite consumes it: a Safety Gym [Engine] has
    [step] and the attribute [num_steps], and no attribute
    [reward_space]. *)
Record Engine : Type := mkEngine {
  engine_step : action → M St (obs * num * bool * gmap string (value num));
  num_steps : Z;
}.

Definition Engine_as_env (e : Engine) : GymEnv num action obs St num :=
  mkGymEnv (engine_step e) (num_steps e) None.

(** [gym.make]: the registry lookup; raises for a name it does not know. *)
Context (gym_make : string → exn + Engine).

(** The environment [load] has built when it calls [wrap_env]. *)
Inductive suite_env : Type :=
| Unconstrained (e : CompleteEnvInfo.t num action obs St num)
| Constrained (e : VectorReward.t num action obs St).

(** [env.num_steps] and [hasattr(env, 'reward_space')] on it. *)
Definition suite_num_steps (e : suite_env) : Z :=
  match e with
  | Unconstrained c => env_num_steps (CompleteEnvInfo.as_env c)
  | Constrained v => env_num_steps (VectorReward.as_env v)
  end.

Definition suite_reward_space (e : suite_env) : option (Box num) :=
  match e with
  | Unconstrained c => env_reward_space (CompleteEnvInfo.as_env c)
  | Constrained v => env_reward_space (VectorReward.as_env v)
  end.

(** The arguments of the call [suite_gym.wrap_env(env, env_id=..., ...)]. *)
Record wrap_env_args : Type := mkArgs {
  arg_env : suite_env;
  arg_env_id : EnvId;
  arg_discount : Discount;
  arg_max_episode_steps : Z;
  arg_gym_env_wrappers : GymWrappers;
  arg_alf_env_wrappers : AlfWrappers;
}.

(** [suite_gym.wrap_env] is not part of this module. *)
Context (wrap_env : wrap_env_args → exn + AlfEnvironment).

(** [not max_episode_steps] for [None] or an [int]. *)
Definition py_not (max_episode_steps : option Z) : bool :=
  match max_episode_steps with
  | None => true
  | Some i => i =? 0
  end.

(** Lines 195-197: the step limit. *)
Definition step_limit (env_num_steps : Z) (max_episode_steps : option Z)
  : Z :=
  let max_episode_steps :=
    match max_episode_steps with
    | None => env_num_steps - 1
    | Some i => if py_not (Some i) then env_num_steps - 1 else i
    end in
  Z.min (env_num_steps - 1) max_episode_steps.

(** The body of [load] up to its last call. *)
Definition load_args (environment_name : string) (env_id : EnvId)
           (discount : Discount) (max_episode_steps : option Z)
           (unconstrained : bool) (gym_env_wrappers : GymWrappers)
           (alf_env_wrappers : AlfWrappers) : exn + wrap_env_args :=
  match gym_make environment_name with
  | inl e => inl e
  | inr env =>
    let env := CompleteEnvInfo.__init__ (Engine_as_env env)
                                        environment_name in
    let env :=
      if negb unconstrained
      then Constrained (VectorReward.__init__ (CompleteEnvInfo.as_env env))
      else Unconstrained env in
    let max_episode_steps :=
      step_limit (suite_num_steps env) max_episode_steps in
    inr (mkArgs env env_id discount max_episode_steps
                gym_env_wrappers alf_env_wrappers)
  end.

Definition load (environment_name : string) (env_id : EnvId)
           (discount : Discount) (max_episode_steps : option Z)
           (unconstrained : bool) (gym_env_wrappers : GymWrappers)
           (alf_env_wrappers : AlfWrappers) : exn + AlfEnvironment :=
  match load_args environment_name env_id discount max_episode_steps
                  unconstrained gym_env_wrappers alf_env_wrappers with
  | inl e => inl e
  | inr args => wrap_env args
  end.

End Load.

(** * Reference points for the properties *)

(** The key sets of the two environment classes, spelled out. *)
Definition level0_key_set : gset string :=
  {[ "cost_exception"; "goal_met"; "cost" ]}.

Definition constrained_key_set : gset string :=
  {[ "cost_exception"; "goal_met"; "cost";
     "cost_vases_contact"; "cost_pillars"; "cost_buttons"; "cost_gremlins";
     "cost_vases_displace"; "cost_vases_velocity"; "cost_hazards" ]}.

(** The key set expected for a name, by its classification. *)
Definition expected_key_set (env_name : string) : gset string :=
  if str_in "0-v" env_name then level0_key_set else constrained_key_set.

(** ** An IEEE 754 interpretation of the numbers

    Python's [float] is binary64 and [np.float32] is binary32.  The values
    are those of the Standard Library's [spec_float]; every operation returns
    the canonical binary64 datum of its result, and rounding is to nearest
    even. *)

Module IEEE.

Definition binary64 (x : spec_float) : spec_float :=
  match x with
  | S754_finite s m e => binary_normalize 53 1024 (cond_Zopp s (Z.pos m)) e s
  | _ => x
  end.

Definition binary32 (x : spec_float) : spec_float :=
  match x with
  | S754_finite s m e => binary_normalize 24 128 (cond_Zopp s (Z.pos m)) e s
  | _ => x
  end.

(** The double nearest to [m * 2^e]. *)
Definition double (m e : Z) : spec_float :=
  binary_normalize 53 1024 m e false.

(** [float(i)] raises when the double nearest to [i] would be 2^1024 or
    more in magnitude. *)
Definition too_large (i : Z) : bool :=
  match double i 0 with
  | S754_infinity _ => true
  | _ => false
  end.

#[global] Instance floats : Floats spec_float := {|
  of_int i := double i 0;
  int_overflows := too_large;
  fneg := SFopp;
  float32 x := binary64 (binary32 x);
  float_inf := S754_infinity false;
|}.

End IEEE.

(** ** Sample environments

    A simulator stub over the IEEE numbers: the state is the number of steps
    taken so far, which is also the observation; every step returns the same
    reward and the same info dict, and [done] once [num_steps] is reached. *)

Module Sample.

Definition sim_step (reward : spec_float)
           (info : gmap string (value spec_float)) (a : unit)
  : M Z (Z * spec_float * bool * gmap string (value spec_float)) :=
  λ steps, (inr (steps, reward, 1000 <=? steps + 1, info), steps + 1).

Definition sim (reward : spec_float)
           (info : gmap string (value spec_float))
  : GymEnv spec_float unit Z Z spec_float :=
  mkGymEnv (sim_step reward info) 1000 None.

(** 0.1, 0.5, 1.0 and -1.0 as doubles, and the float nearest to 0.1. *)
Definition f0_1 : spec_float := IEEE.double 3602879701896397 (-55).
Definition f0_5 : spec_float := IEEE.double 1 (-1).
Definition f1_0 : spec_float := IEEE.double 1 0.
Definition fm1_0 : spec_float := IEEE.double (-1) 0.
Definition f0_0 : spec_float := IEEE.double 0 0.
Definition f0_1_single : spec_float := IEEE.double 13421773 (-27).

(** What Safety Gym reports on a step that only hits a hazard, and on a
    step where the physics raised. *)
Definition info_hazard : gmap string (value spec_float) :=
  {[ "cost_hazards" := VFloat f1_0; "cost" := VFloat f1_0 ]}.

Definition info_exception : gmap string (value spec_float) :=
  {[ "cost_exception" := VFloat f1_0 ]}.

(** A level-0 step that reaches the goal, with every key reported. *)
Definition info_complete0 : gmap string (value spec_float) :=
  {[ "cost_exception" := VFloat f0_0; "goal_met" := VBool true;
     "cost" := VFloat f0_0 ]}.

(** An info dict with a key of its own (gym's [TimeLimit] adds this one). *)
Definition info_truncated : gmap string (value spec_float) :=
  {[ "cost" := VFloat f0_0; "TimeLimit.truncated" := VBool true ]}.

(** The info of a step that meets the goal while a constraint is violated. *)
Definition info_goal : gmap string (value spec_float) :=
  {[ "cost" := VFloat f1_0; "goal_met" := VBool true ]}.

(** A registry with two names, and a [wrap_env] that hands its arguments
    back.  The wrapper lists are lists of class names. *)
Definition engine (reward : spec_float)
           (info : gmap string (value spec_float))
  : @Engine spec_float unit Z Z :=
  mkEngine (sim_step reward info) 1000.

Definition gym_make (environment_name : string)
  : exn + @Engine spec_float unit Z Z :=
  if String.eqb environment_name "Safexp-PointGoal0-v0"
  then inr (engine f0_1 info_goal)
  else if String.eqb environment_name "Safexp-PointGoal1-v0"
  then inr (engine f0_1 info_hazard)
  else inl (OtherError "gym.error.UnregisteredEnv").

Definition wrap_env
           (args : @wrap_env_args spec_float unit Z Z (option Z) spec_float
                                  (list string) (list string))
  : exn + @wrap_env_args spec_float unit Z Z (option Z) spec_float
                         (list string) (list string) :=
  inr args.

(** The limit [load] computes for the sample simulator ([num_steps] is
    1000) and a caller limit [L]. *)
Definition sample_limit (L : option Z) (unconstrained : bool)
  : exn + Z :=
  match load_args gym_make "Safexp-PointGoal1-v0" (None : option Z) f1_0 L
                  unconstrained ([] : list string) ([] : list string) with
  | inl e => inl e
  | inr args => inr (arg_max_episode_steps args)
  end.

(** Which packages are installed: all of them, or all but [safety_gym]. *)
Definition all_installed (name : string) : option exn := None.

Definition no_safety_gym (name : string) : option exn :=
  if String.eqb name "safety_gym" then Some (ImportError name) else None.

(** [mujoco_py] is installed but fails while it is imported, with an
    exception that is not an [ImportError]. *)
Definition broken_mujoco (name : string) : option exn :=
  if String.eqb name "mujoco_py" then Some (OtherError "Exception")
  else None.

(** A simulator whose info changes from step to step: a hazard on the
    even steps, a physics exception on the odd ones. *)
Definition sim_alternating : GymEnv spec_float unit Z Z spec_float :=
  mkGymEnv
    (λ _ steps,
       (inr (steps, f0_5, 1000 <=? steps + 1,
             if Z.even steps then info_hazard else info_exception),
        steps + 1))
    1000 None.

(** Info dicts with an [int] beyond the range of a float. *)
Definition info_huge_cost : gmap string (value spec_float) :=
  {[ "cost" := VInt (2 ^ 1024); "goal_met" := VBool true ]}.

Definition info_huge_goal : gmap string (value spec_float) :=
  {[ "cost" := VFloat f0_0; "goal_met" := VInt (2 ^ 1024) ]}.

(** A step that reports nothing. *)
Definition info_empty : gmap string (value spec_float) := ∅.

(** A [wrap_env] that fails. *)
Definition wrap_env_fails
           (args : @wrap_env_args spec_float unit Z Z (option Z) spec_float
                                  (list string) (list string))
  : exn + unit :=
  inl (OtherError "AssertionError").

End Sample.

(** The exceptions [except ImportError] catches. *)
Definition is_ImportError (e : exn) : bool :=
  match e with
  | ImportError _ => true
  | _ => false
  end.

(** * Properties *)

(** ** The [in] operator on strings *)

Lemma append_String (c : Ascii.ascii) (s t : string) :
  (String c s ++ t)%string = String c (s ++ t)%string.
Proof. reflexivity. Qed.

Lemma prefix_app (s t : string) :
  String.prefix s t = true ↔ ∃ post, t = (s ++ post)%string.
Proof.
  revert t. induction s as [|c s IH]; intros t.
  - destruct t; simpl; split; eauto.
  - destruct t as [|c' t]; simpl.
    + split; [discriminate | intros [post Hpost]; discriminate].
    + setoid_rewrite append_String.
      destruct (Ascii.ascii_dec c c') as [->|Hne].
      * rewrite IH. split; intros [post Hpost]; exists post; congruence.
      * split; [discriminate | intros [post Hpost]; congruence].
Qed.

(** [str_in] is substring membership. *)
Lemma str_in_substring (needle haystack : string) :
  str_in needle haystack = true
  ↔ ∃ pre post, haystack = (pre ++ needle ++ post)%string.
Proof.
  induction haystack as [|c rest IH].
  - change (str_in needle EmptyString)
      with (String.prefix needle EmptyString || false).
    rewrite orb_false_r, prefix_app. split.
    + intros [post Hpost]. by exists EmptyString, post.
    + intros [pre [post Hpost]]. destruct pre; [by exists post | discriminate].
  - change (str_in needle (String c rest))
      with (String.prefix needle (String c rest) || str_in needle rest).
    rewrite orb_true_iff, prefix_app, IH. split.
    + intros [[post Hpost] | [pre [post Hpost]]].
      * by exists EmptyString, post.
      * exists (String c pre), post. rewrite append_String. by rewrite Hpost.
    + intros [pre [post Hpost]]. destruct pre as [|c' pre].
      * left. by exists post.
      * right. exists pre, post. rewrite append_String in Hpost. congruence.
Qed.

(** ** The step monad *)

Lemma bind_inr {S A B} (c : M S A) (k : A → M S B) s a s' :
  c s = (inr a, s') → bind c k s = k a s'.
Proof. intros Hc. unfold bind. by rewrite Hc. Qed.

Lemma bind_inl {S A B} (c : M S A) (k : A → M S B) s e s' :
  c s = (inl e, s') → bind c k s = (inl e, s').
Proof. intros Hc. unfold bind. by rewrite Hc. Qed.

(** ** Dicts *)

Section DictFacts.

Context {num : Type}.
Implicit Types d other : gmap string (value num).

Lemma lookup_dict_update d other key :
  dict_update d other !! key
  = match other !! key with
    | Some v => Some v
    | None => d !! key
    end.
Proof.
  unfold dict_update. destruct (other !! key) as [v|] eqn:Hother.
  - by apply lookup_union_Some_l.
  - by rewrite lookup_union_r.
Qed.

Lemma dom_dict_update d other :
  dom (dict_update d other) = dom d ∪ dom other.
Proof. unfold dict_update. rewrite dom_union_L. apply (comm_L (∪)). Qed.

Lemma getitem_Some {S} d key v (s : S) :
  d !! key = Some v → getitem d key s = (inr v, s).
Proof. intros Hd. unfold getitem. by rewrite Hd. Qed.

Lemma getitem_None {S} d key (s : S) :
  d !! key = None → getitem d key s = (inl (KeyError key), s).
Proof. intros Hd. unfold getitem. by rewrite Hd. Qed.

End DictFacts.

(** ** CompleteEnvInfo *)

Lemma size_level0_key_set : size level0_key_set = 3%nat.
Proof. by vm_compute. Qed.

Lemma size_constrained_key_set : size constrained_key_set = 10%nat.
Proof. by vm_compute. Qed.

Section CompleteEnvInfoFacts.

Context {num : Type} `{!Floats num} {action obs St R : Type}.
Implicit Types env : GymEnv num action obs St R.
Implicit Types self : CompleteEnvInfo.t num action obs St R.
Implicit Types info env_info : gmap string (value num).

Import CompleteEnvInfo.

(** The loop of [_generate_default_env_info], started from any dict. *)
Lemma lookup_foldl_insert (keys : list string) (d : gmap string (value num))
      (key : string) :
  foldl (λ env_info k, <[k := default_value k]> env_info) d keys !! key
  = if decide (key ∈ keys) then Some (default_value key) else d !! key.
Proof.
  revert d. induction keys as [|k keys IH]; intros d; cbn [foldl].
  - case_decide as Hin; [by apply elem_of_nil in Hin | done].
  - rewrite IH.
    destruct (decide (key ∈ keys)) as [Hin|Hnin];
      destruct (decide (key ∈ k :: keys)) as [Hin'|Hnin']; try done.
    + exfalso. apply Hnin'. by right.
    + apply elem_of_cons in Hin' as [->|Hin']; [|done].
      by rewrite lookup_insert_eq.
    + rewrite lookup_insert_ne; [done|].
      intros ->. apply Hnin'. by left.
Qed.

Lemma lookup_default_env_info (keys : list string) (key : string) :
  _generate_default_env_info keys !! key
  = if decide (key ∈ keys) then Some (default_value key) else None.
Proof.
  unfold _generate_default_env_info. rewrite lookup_foldl_insert.
  by rewrite lookup_empty.
Qed.

Lemma dom_default_env_info (keys : list string) :
  dom (_generate_default_env_info keys) = list_to_set keys.
Proof.
  apply set_eq. intros key.
  rewrite elem_of_dom, lookup_default_env_info, elem_of_list_to_set.
  destruct (decide (key ∈ keys)); split; try done; by intros [? ?].
Qed.

(** The value of a default, by cases on the key. *)
Lemma default_value_cases (key : string) :
  default_value key
  = if decide (key = "goal_met") then VBool false
    else VFloat (float32 (of_int 0)).
Proof.
  unfold default_value.
  destruct (String.eqb_spec key "goal_met"); by case_decide.
Qed.

(** The keys [__init__] selects, as a set. *)
Lemma keys_init env env_name :
  list_to_set (_env_info_keys (__init__ env env_name))
  = expected_key_set env_name.
Proof.
  unfold __init__, expected_key_set, _is_level0_env. simpl.
  destruct (str_in "0-v" env_name); by vm_compute.
Qed.

Lemma default_init env env_name :
  _default_env_info (__init__ env env_name)
  = _generate_default_env_info (_env_info_keys (__init__ env env_name)).
Proof. reflexivity. Qed.

(** One step of the wrapper, when the wrapped step returns. *)
Lemma CompleteEnvInfo_step_inr self (a : action) (st st' : St) (o : obs)
      (r : R) (d : bool) info :
  env_step (env self) a st = (inr (o, r, d, info), st') →
  step self a st
  = (inr (o, r, d, dict_update (_default_env_info self) info), st').
Proof. intros Hstep. unfold step. by rewrite (bind_inr _ _ _ _ _ Hstep). Qed.

Lemma CompleteEnvInfo_step_inl self (a : action) (st st' : St) (e : exn) :
  env_step (env self) a st = (inl e, st') →
  step self a st = (inl e, st').
Proof. intros Hstep. unfold step. by rewrite (bind_inl _ _ _ _ _ Hstep). Qed.

End CompleteEnvInfoFacts.

Section CompleteEnvInfoStep.

Context {num : Type} `{!Floats num} {action obs St R : Type}.
Implicit Types env : GymEnv num action obs St R.
Implicit Types info env_info : gmap string (value num).

Import CompleteEnvInfo.

(** C10. The level classification is substring membership: [__init__]
    selects the three base keys exactly when ["0-v"] occurs somewhere in
    the environment name, and the ten keys exactly when it occurs
    nowhere, whatever level the name stands for. *)
Theorem level_classification_is_substring env (env_name : string) :
  (_env_info_keys (__init__ env env_name)
   = ["cost_exception"; "goal_met"; "cost"]
   ↔ ∃ pre post, env_name = (pre ++ "0-v" ++ post)%string)
  ∧ (_env_info_keys (__init__ env env_name)
     = ["cost_exception"; "goal_met"; "cost";
        "cost_vases_contact"; "cost_pillars"; "cost_buttons";
        "cost_gremlins"; "cost_vases_displace"; "cost_vases_velocity";
        "cost_hazards"]
     ↔ ¬ ∃ pre post, env_name = (pre ++ "0-v" ++ post)%string).
Proof.
  rewrite <- (str_in_substring "0-v" env_name).
  unfold __init__, _is_level0_env. cbn [_env_info_keys].
  destruct (str_in "0-v" env_name); cbn [negb]; split; split;
    try done; try discriminate.
Qed.

(** C8. Frame property of the info normaliser: when the wrapped step
    returns, [step] returns the same observation, reward and done flag and
    leaves the simulator in the same state, only the info dict is
    rebuilt; when the wrapped step raises, the same exception comes out. *)
Theorem step_frame (self : t num action obs St R) (a : action) (st : St) :
  match env_step (env self) a st with
  | (inr (o, r, d, info), st') =>
      ∃ env_info, step self a st = (inr (o, r, d, env_info), st')
  | (inl e, st') => step self a st = (inl e, st')
  end.
Proof.
  destruct (env_step (env self) a st) as [[e|[[[o r] d] info]] st'] eqn:Hs.
  - by apply CompleteEnvInfo_step_inl.
  - eexists. by apply CompleteEnvInfo_step_inr.
Qed.

(** C1. For every environment name and every info dict the wrapped step
    returns, whatever subset of the expected keys it reports, the record
    returned by [step] has exactly the expected key set of the name's
    class: the 3 base keys for a level-0 name, the 10 keys otherwise. *)
Theorem step_key_set env (env_name : string) (a : action) (st st' : St)
        (o : obs) (r : R) (d : bool) info :
  env_step env a st = (inr (o, r, d, info), st') →
  dom info ⊆ expected_key_set env_name →
  ∃ env_info,
    step (__init__ env env_name) a st = (inr (o, r, d, env_info), st')
    ∧ dom env_info = expected_key_set env_name
    ∧ size env_info = (if str_in "0-v" env_name then 3%nat else 10%nat).
Proof.
  intros Hstep Hsub. eexists. split; [by apply CompleteEnvInfo_step_inr|].
  assert (dom (dict_update (_default_env_info (__init__ env env_name)) info)
          = expected_key_set env_name) as Hdom.
  { rewrite dom_dict_update, default_init, dom_default_env_info, keys_init.
    by rewrite (comm_L (∪)), (subseteq_union_1_L _ _ Hsub). }
  split; [done|].
  rewrite <- size_dom, Hdom.
  unfold expected_key_set. destruct (str_in "0-v" env_name).
  - apply size_level0_key_set.
  - apply size_constrained_key_set.
Qed.

(** C4. A key of the expected set that the wrapped step did not report is
    present in the returned record with its default: [False] for
    ["goal_met"], [np.float32(0.)] for each cost key. *)
Theorem step_fills_default env (env_name : string) (a : action)
        (st st' : St) (o : obs) (r : R) (d : bool) info (key : string) :
  env_step env a st = (inr (o, r, d, info), st') →
  key ∈ expected_key_set env_name →
  info !! key = None →
  ∃ env_info,
    step (__init__ env env_name) a st = (inr (o, r, d, env_info), st')
    ∧ env_info !! key
      = Some (if decide (key = "goal_met") then VBool false
              else VFloat (float32 (of_int 0))).
Proof.
  intros Hstep Hkey Hmiss. eexists. split; [by apply CompleteEnvInfo_step_inr|].
  rewrite lookup_dict_update, Hmiss, default_init, lookup_default_env_info.
  rewrite <- keys_init with (env := env), elem_of_list_to_set in Hkey.
  rewrite decide_True by done. by rewrite default_value_cases.
Qed.

(** C6. When the wrapped step reports every expected key, the returned
    record maps each expected key to the reported value; indeed it is the
    reported dict, so no default shows through. *)
Theorem step_overlay_complete env (env_name : string) (a : action)
        (st st' : St) (o : obs) (r : R) (d : bool) info :
  env_step env a st = (inr (o, r, d, info), st') →
  (∀ key, key ∈ expected_key_set env_name → is_Some (info !! key)) →
  ∃ env_info,
    step (__init__ env env_name) a st = (inr (o, r, d, env_info), st')
    ∧ (∀ key, key ∈ expected_key_set env_name →
              env_info !! key = info !! key)
    ∧ env_info = info.
Proof.
  intros Hstep Hall. eexists. split; [by apply CompleteEnvInfo_step_inr|].
  assert (∀ key, dict_update (_default_env_info (__init__ env env_name))
                             info !! key = info !! key) as Hlookup.
  { intros key. rewrite lookup_dict_update.
    destruct (info !! key) as [v|] eqn:Hinfo; [done|].
    rewrite default_init, lookup_default_env_info.
    case_decide as Hin; [|done].
    apply (elem_of_list_to_set (C := gset string)) in Hin.
    rewrite keys_init in Hin.
    apply Hall in Hin as [v Hv]. congruence. }
  split; [by intros key _|]. by apply map_eq.
Qed.

End CompleteEnvInfoStep.

(** ** CompleteEnvInfo on the sample environments *)

Section CompleteEnvInfoSamples.

Import CompleteEnvInfo Sample.

(** The names of the benchmark end in the level and the version, so the
    test tells level 0 from levels 1 and 2; a name of another shape is
    classified by the same test. *)
Example level0_PointGoal0 : _is_level0_env "Safexp-PointGoal0-v0" = true.
Proof. reflexivity. Qed.

Example level0_PointGoal1 : _is_level0_env "Safexp-PointGoal1-v0" = false.
Proof. reflexivity. Qed.

Example level0_CarPush2 : _is_level0_env "Safexp-CarPush2-v0" = false.
Proof. reflexivity. Qed.

Example level0_level10 : _is_level0_env "Safexp-PointGoal10-v0" = true.
Proof. reflexivity. Qed.

Example keys_PointGoal0 :
  _env_info_keys (__init__ (sim f0_5 info_hazard) "Safexp-PointGoal0-v0")
  = ["cost_exception"; "goal_met"; "cost"].
Proof. reflexivity. Qed.

(** A level-1 name and a step that only reports a hazard: the record has
    the ten keys. *)
Lemma step_key_set_witness :
  env_step (sim f0_5 info_hazard) () 0
  = (inr (0, f0_5, false, info_hazard), 1)
  ∧ dom info_hazard ⊆ expected_key_set "Safexp-PointGoal1-v0"
  ∧ ∃ env_info,
      step (__init__ (sim f0_5 info_hazard) "Safexp-PointGoal1-v0") () 0
      = (inr (0, f0_5, false, env_info), 1)
      ∧ dom env_info = expected_key_set "Safexp-PointGoal1-v0"
      ∧ size env_info
        = (if str_in "0-v" "Safexp-PointGoal1-v0" then 3%nat else 10%nat).
Proof.
  assert (dom info_hazard ⊆ expected_key_set "Safexp-PointGoal1-v0")
    as Hsub.
  { apply (bool_decide_unpack _). by vm_compute. }
  split; [reflexivity|]. split; [exact Hsub|].
  apply (step_key_set (sim f0_5 info_hazard) "Safexp-PointGoal1-v0"
                      () 0 1 0 f0_5 false info_hazard);
    [reflexivity | exact Hsub].
Defined.

(** The exception step reports a subset of the keys of either level: on a
    level-0 name the record has the three base keys. *)
Example step_key_set_exception_level0 :
  ∃ env_info,
    step (__init__ (sim f0_5 info_exception) "Safexp-PointGoal0-v0") () 0
    = (inr (0, f0_5, false, env_info), 1)
    ∧ dom env_info = level0_key_set.
Proof. eexists. split; [reflexivity|]. by vm_compute. Qed.

(** A reported key outside the expected set is not filtered: it stays in
    the record.  Here the name is of level 1 and the record has 11 keys. *)
Example step_keeps_other_key :
  ∃ env_info,
    step (__init__ (sim f0_5 info_truncated) "Safexp-PointGoal1-v0") () 0
    = (inr (0, f0_5, false, env_info), 1)
    ∧ expected_key_set "Safexp-PointGoal1-v0" = constrained_key_set
    ∧ dom env_info ≠ expected_key_set "Safexp-PointGoal1-v0"
    ∧ size env_info = 11%nat.
Proof.
  eexists. split; [reflexivity|]. split; [reflexivity|]. split.
  - intros Heq. apply (f_equal size) in Heq. vm_compute in Heq.
    discriminate.
  - by vm_compute.
Qed.

(** The same on a level-0 name: four keys instead of three. *)
Example step_keeps_other_key_level0 :
  ∃ env_info,
    step (__init__ (sim f0_5 info_truncated) "Safexp-PointGoal0-v0") () 0
    = (inr (0, f0_5, false, env_info), 1)
    ∧ dom env_info ≠ expected_key_set "Safexp-PointGoal0-v0"
    ∧ size env_info = 4%nat.
Proof.
  eexists. split; [reflexivity|]. split.
  - intros Heq. apply (f_equal size) in Heq. vm_compute in Heq.
    discriminate.
  - by vm_compute.
Qed.

(** The physics raised: only ["cost_exception"] is reported, and ["cost"]
    and ["goal_met"] get their defaults. *)
Lemma step_fills_default_witness :
  env_step (sim f0_5 info_exception) () 0
  = (inr (0, f0_5, false, info_exception), 1)
  ∧ "cost" ∈ expected_key_set "Safexp-PointGoal1-v0"
  ∧ info_exception !! "cost" = None
  ∧ ∃ env_info,
      step (__init__ (sim f0_5 info_exception) "Safexp-PointGoal1-v0") () 0
      = (inr (0, f0_5, false, env_info), 1)
      ∧ env_info !! "cost"
        = Some (if decide ("cost" = "goal_met") then VBool false
                else VFloat (float32 (of_int 0))).
Proof.
  assert ("cost" ∈ expected_key_set "Safexp-PointGoal1-v0") as Hin.
  { apply (bool_decide_unpack _). by vm_compute. }
  split; [reflexivity|]. split; [exact Hin|]. split; [reflexivity|].
  apply (step_fills_default (sim f0_5 info_exception)
           "Safexp-PointGoal1-v0" () 0 1 0 f0_5 false info_exception "cost");
    [reflexivity | exact Hin | reflexivity].
Defined.

Example step_fills_default_values :
  ∃ env_info,
    step (__init__ (sim f0_5 info_exception) "Safexp-PointGoal0-v0") () 0
    = (inr (0, f0_5, false, env_info), 1)
    ∧ env_info !! "cost" = Some (VFloat f0_0)
    ∧ env_info !! "goal_met" = Some (VBool false)
    ∧ env_info !! "cost_exception" = Some (VFloat f1_0)
    ∧ env_info !! "cost_hazards" = None.
Proof. eexists. split; [reflexivity|]. by vm_compute. Qed.

(** Every level-0 key reported: the record is the reported dict. *)
Lemma step_overlay_complete_witness :
  env_step (sim f0_5 info_complete0) () 0
  = (inr (0, f0_5, false, info_complete0), 1)
  ∧ (∀ key, key ∈ expected_key_set "Safexp-PointGoal0-v0" →
            is_Some (info_complete0 !! key))
  ∧ ∃ env_info,
      step (__init__ (sim f0_5 info_complete0) "Safexp-PointGoal0-v0") () 0
      = (inr (0, f0_5, false, env_info), 1)
      ∧ (∀ key, key ∈ expected_key_set "Safexp-PointGoal0-v0" →
                env_info !! key = info_complete0 !! key)
      ∧ env_info = info_complete0.
Proof.
  assert (∀ key, key ∈ expected_key_set "Safexp-PointGoal0-v0" →
                 is_Some (info_complete0 !! key)) as Hall.
  { intros key Hkey. apply elem_of_dom.
    replace (dom info_complete0)
      with (expected_key_set "Safexp-PointGoal0-v0"); [done|].
    by vm_compute. }
  split; [reflexivity|]. split; [exact Hall|].
  apply (step_overlay_complete (sim f0_5 info_complete0)
           "Safexp-PointGoal0-v0" () 0 1 0 f0_5 false info_complete0);
    [reflexivity | exact Hall].
Defined.

End CompleteEnvInfoSamples.

(** ** VectorReward *)

Section VectorRewardStep.

Context {num : Type} `{!Floats num} {action obs St : Type}.
Implicit Types self : VectorReward.t num action obs St.
Implicit Types info : gmap string (value num).

Import VectorReward.

(** [float(v)] raises nothing but [OverflowError], and only on an [int]. *)
Lemma py_float_inl (v : value num) (e : exn) :
  py_float v = inl e →
  e = OverflowError ∧ ∃ i, v = VInt i ∧ int_overflows i = true.
Proof.
  destruct v as [b|i|x]; cbn [py_float]; try discriminate.
  destruct (int_overflows i) eqn:Hi; [|discriminate].
  intros [= <-]. by eauto.
Qed.

Lemma np_float32_inl (v : value num) (e : exn) :
  np_float32 v = inl e →
  e = OverflowError ∧ ∃ i, v = VInt i ∧ int_overflows i = true.
Proof.
  unfold np_float32. destruct (py_float v) as [e0|x] eqn:Hv; [|discriminate].
  intros [= <-]. by apply py_float_inl.
Qed.

(** The array of a float, any scalar and a float. *)
Lemma np_array_float32_triple (r s : num) (c : value num) :
  np_array_float32 [VFloat r; c; VFloat s]
  = match np_float32 c with
    | inl e => inl e
    | inr x => inr [float32 r; x; float32 s]
    end.
Proof.
  cbn [np_array_float32].
  change (np_float32 (VFloat r)) with (@inr exn num (float32 r)).
  change (np_float32 (VFloat s)) with (@inr exn num (float32 s)).
  by destruct (np_float32 c).
Qed.

(** One step of the wrapper when both keys are there and the conversions
    go through, for any kind of value under the keys. *)
Lemma VectorReward_step_values self (a : action) (st st' : St) (o : obs)
      (r : num) (d : bool) info (cost goal_met : value num)
      (success : num) (reward : list num) :
  env_step (env self) a st = (inr (o, r, d, info), st') →
  info !! "cost" = Some cost →
  info !! "goal_met" = Some goal_met →
  py_float goal_met = inr success →
  np_array_float32 [VFloat r; py_neg cost; VFloat success] = inr reward →
  step self a st = (inr (o, reward, d, info), st').
Proof.
  intros Hstep Hcost Hgoal Hfloat Harray. unfold step.
  rewrite (bind_inr _ _ _ _ _ Hstep).
  rewrite (bind_inr _ _ _ _ _ (getitem_Some info "cost" cost st' Hcost)).
  rewrite (bind_inr _ _ _ _ _
             (getitem_Some info "goal_met" goal_met st' Hgoal)).
  unfold bind, lift, ret. by rewrite Hfloat, Harray.
Qed.

(** The two places where a conversion can raise. *)
Lemma VectorReward_step_float_raises self (a : action) (st st' : St)
      (o : obs) (r : num) (d : bool) info (cost goal_met : value num)
      (e : exn) :
  env_step (env self) a st = (inr (o, r, d, info), st') →
  info !! "cost" = Some cost →
  info !! "goal_met" = Some goal_met →
  py_float goal_met = inl e →
  step self a st = (inl e, st').
Proof.
  intros Hstep Hcost Hgoal Hfloat. unfold step.
  rewrite (bind_inr _ _ _ _ _ Hstep).
  rewrite (bind_inr _ _ _ _ _ (getitem_Some info "cost" cost st' Hcost)).
  rewrite (bind_inr _ _ _ _ _
             (getitem_Some info "goal_met" goal_met st' Hgoal)).
  unfold bind, lift. by rewrite Hfloat.
Qed.

Lemma VectorReward_step_array_raises self (a : action) (st st' : St)
      (o : obs) (r : num) (d : bool) info (cost goal_met : value num)
      (success : num) (e : exn) :
  env_step (env self) a st = (inr (o, r, d, info), st') →
  info !! "cost" = Some cost →
  info !! "goal_met" = Some goal_met →
  py_float goal_met = inr success →
  np_array_float32 [VFloat r; py_neg cost; VFloat success] = inl e →
  step self a st = (inl e, st').
Proof.
  intros Hstep Hcost Hgoal Hfloat Harray. unfold step.
  rewrite (bind_inr _ _ _ _ _ Hstep).
  rewrite (bind_inr _ _ _ _ _ (getitem_Some info "cost" cost st' Hcost)).
  rewrite (bind_inr _ _ _ _ _
             (getitem_Some info "goal_met" goal_met st' Hgoal)).
  unfold bind, lift. by rewrite Hfloat, Harray.
Qed.

(** With both keys there the step returns or raises [OverflowError]. *)
Lemma VectorReward_step_both_keys self (a : action) (st st' : St) (o : obs)
      (r : num) (d : bool) info (cost goal_met : value num) :
  env_step (env self) a st = (inr (o, r, d, info), st') →
  info !! "cost" = Some cost →
  info !! "goal_met" = Some goal_met →
  (∃ success x,
     py_float goal_met = inr success
     ∧ np_float32 (py_neg cost) = inr x
     ∧ step self a st
       = (inr (o, [float32 r; x; float32 success], d, info), st'))
  ∨ (step self a st = (inl OverflowError, st')
     ∧ (py_float goal_met = inl OverflowError
        ∨ np_float32 (py_neg cost) = inl OverflowError)).
Proof.
  intros Hstep Hcost Hgoal.
  destruct (py_float goal_met) as [e|success] eqn:Hfloat.
  - destruct (py_float_inl _ _ Hfloat) as [-> _]. right. split; [|by left].
    by apply (VectorReward_step_float_raises _ _ _ _ o r d info cost goal_met).
  - destruct (np_float32 (py_neg cost)) as [e|x] eqn:Hneg.
    + destruct (np_float32_inl _ _ Hneg) as [-> _].
      right. split; [|by right].
      apply (VectorReward_step_array_raises _ _ _ _ o r d info cost goal_met
                                            success); try done.
      by rewrite np_array_float32_triple, Hneg.
    + left. exists success, x. split; [done|]. split; [done|].
      apply (VectorReward_step_values _ _ _ _ o r d info cost goal_met
                                      success); try done.
      by rewrite np_array_float32_triple, Hneg.
Qed.

Lemma VectorReward_step_no_cost self (a : action) (st st' : St) (o : obs)
      (r : num) (d : bool) info :
  env_step (env self) a st = (inr (o, r, d, info), st') →
  info !! "cost" = None →
  step self a st = (inl (KeyError "cost"), st').
Proof.
  intros Hstep Hcost. unfold step. rewrite (bind_inr _ _ _ _ _ Hstep).
  by rewrite (bind_inl _ _ _ _ _ (getitem_None info "cost" st' Hcost)).
Qed.

Lemma VectorReward_step_no_goal_met self (a : action) (st st' : St)
      (o : obs) (r : num) (d : bool) info (cost : value num) :
  env_step (env self) a st = (inr (o, r, d, info), st') →
  info !! "cost" = Some cost →
  info !! "goal_met" = None →
  step self a st = (inl (KeyError "goal_met"), st').
Proof.
  intros Hstep Hcost Hgoal. unfold step.
  rewrite (bind_inr _ _ _ _ _ Hstep).
  rewrite (bind_inr _ _ _ _ _ (getitem_Some info "cost" cost st' Hcost)).
  by rewrite (bind_inl _ _ _ _ _ (getitem_None info "goal_met" st' Hgoal)).
Qed.

(** C3, as amended. With scalar reward [r], ["cost"] = [c] and
    ["goal_met"] = [g], the returned reward is the [np.float32] array of
    [(r, -c, 1.0 if g else 0.0)]: each component is the cast to float32 of
    the corresponding number.  Observation, done flag and info dict are
    those of the wrapped step. *)
Theorem step_reward_vector self (a : action) (st st' : St) (o : obs)
        (r : num) (d : bool) info (c : num) (g : bool) :
  env_step (env self) a st = (inr (o, r, d, info), st') →
  info !! "cost" = Some (VFloat c) →
  info !! "goal_met" = Some (VBool g) →
  step self a st
  = (inr (o,
          [float32 r; float32 (fneg c);
           float32 (if g then of_int 1 else of_int 0)],
          d, info), st').
Proof.
  intros Hstep Hcost Hgoal.
  apply (VectorReward_step_values _ _ _ _ o r d info (VFloat c) (VBool g)
                                  (if g then of_int 1 else of_int 0));
    try done.
  by destruct g.
Qed.

(** So the vector is [(r, -c, 1.0 if g else 0.0)] itself when these three
    numbers are float32 values already. *)
Corollary step_reward_vector_exact self (a : action) (st st' : St) (o : obs)
          (r : num) (d : bool) info (c : num) (g : bool) :
  env_step (env self) a st = (inr (o, r, d, info), st') →
  info !! "cost" = Some (VFloat c) →
  info !! "goal_met" = Some (VBool g) →
  float32 r = r →
  float32 (fneg c) = fneg c →
  float32 (of_int 0) = of_int 0 →
  float32 (of_int 1) = of_int 1 →
  step self a st
  = (inr (o, [r; fneg c; if g then of_int 1 else of_int 0], d, info), st').
Proof.
  intros Hstep Hcost Hgoal Hr Hc H0 H1.
  apply (VectorReward_step_values _ _ _ _ o r d info (VFloat c) (VBool g)
                                  (if g then of_int 1 else of_int 0));
    try done; [by destruct g|].
  cbn [np_array_float32 np_float32 py_float py_neg].
  rewrite Hr, Hc. by destruct g; rewrite ?H0, ?H1.
Qed.

(** C7. When the wrapped step returns, [step] raises a [KeyError] (the
    only lookup error it can raise) exactly when ["cost"] or ["goal_met"]
    is missing from the info dict: the error names the first missing key
    of the two and no default is put in its place.  With both keys
    present no lookup error is raised: the step returns the observation,
    done flag and info dict of the wrapped step, unless an [int] under
    one of the keys is too large for a float, which is an
    [OverflowError]. *)
Theorem step_KeyError_iff self (a : action) (st st' : St) (o : obs)
        (r : num) (d : bool) info :
  env_step (env self) a st = (inr (o, r, d, info), st') →
  ((∃ e, step self a st = (inl e, st') ∧ is_lookup_error e = true)
   ↔ info !! "cost" = None ∨ info !! "goal_met" = None)
  ∧ (info !! "cost" = None →
     step self a st = (inl (KeyError "cost"), st'))
  ∧ (is_Some (info !! "cost") → info !! "goal_met" = None →
     step self a st = (inl (KeyError "goal_met"), st'))
  ∧ (is_Some (info !! "cost") → is_Some (info !! "goal_met") →
     (∃ reward, step self a st = (inr (o, reward, d, info), st'))
     ∨ step self a st = (inl OverflowError, st')).
Proof.
  intros Hstep. split; [|split; [|split]].
  - destruct (info !! "cost") as [cost|] eqn:Hcost;
      [destruct (info !! "goal_met") as [goal_met|] eqn:Hgoal|].
    + destruct (VectorReward_step_both_keys _ _ _ _ _ _ _ _ _ _
                  Hstep Hcost Hgoal)
        as [(success & x & _ & _ & ->)|[-> _]].
      * split; [intros [e [[=] _]] | intros [[=]|[=]]].
      * split; [intros [e [[= <-] [=]]] | intros [[=]|[=]]].
    + rewrite (VectorReward_step_no_goal_met _ _ _ _ _ _ _ _ _
                 Hstep Hcost Hgoal).
      split; [by right | by eexists].
    + rewrite (VectorReward_step_no_cost _ _ _ _ _ _ _ _ Hstep Hcost).
      split; [by left | by eexists].
  - by apply (VectorReward_step_no_cost _ _ _ _ o r d info).
  - intros [cost Hcost] Hgoal.
    by apply (VectorReward_step_no_goal_met _ _ _ _ o r d info cost).
  - intros [cost Hcost] [goal_met Hgoal].
    destruct (VectorReward_step_both_keys _ _ _ _ _ _ _ _ _ _
                Hstep Hcost Hgoal)
      as [(success & x & _ & _ & ->)|[-> _]]; [left; by eexists | by right].
Qed.

End VectorRewardStep.

(** ** VectorReward on the sample environments *)

Section VectorRewardSamples.

Import VectorReward Sample.

(** Reward 0.5, cost 1.0, goal met: the vector is (0.5, -1.0, 1.0). *)
Lemma step_reward_vector_witness :
  env_step (sim f0_5 info_goal) () 0 = (inr (0, f0_5, false, info_goal), 1)
  ∧ info_goal !! "cost" = Some (VFloat f1_0)
  ∧ info_goal !! "goal_met" = Some (VBool true)
  ∧ step (__init__ (sim f0_5 info_goal)) () 0
    = (inr (0, [float32 f0_5; float32 (fneg f1_0); float32 (of_int 1)],
            false, info_goal), 1).
Proof.
  split; [reflexivity|]. split; [reflexivity|]. split; [reflexivity|].
  apply (step_reward_vector (__init__ (sim f0_5 info_goal)) () 0 1 0
                            f0_5 false info_goal f1_0 true);
    reflexivity.
Defined.

Example step_reward_vector_values :
  step (__init__ (sim f0_5 info_goal)) () 0
  = (inr (0, [f0_5; fm1_0; f1_0], false, info_goal), 1).
Proof. by vm_compute. Qed.

(** C3, as stated, fails on a reward that is not a float32 value: the
    double 0.1 comes out as the float nearest to it, 13421773 * 2^-27. *)
Lemma step_reward_vector_counterexample :
  env_step (sim f0_1 info_goal) () 0 = (inr (0, f0_1, false, info_goal), 1)
  ∧ info_goal !! "cost" = Some (VFloat f1_0)
  ∧ info_goal !! "goal_met" = Some (VBool true)
  ∧ step (__init__ (sim f0_1 info_goal)) () 0
    = (inr (0, [f0_1_single; fm1_0; f1_0], false, info_goal), 1)
  ∧ step (__init__ (sim f0_1 info_goal)) () 0
    ≠ (inr (0, [f0_1; fneg f1_0; f1_0], false, info_goal), 1).
Proof.
  split; [reflexivity|]. split; [reflexivity|]. split; [reflexivity|].
  split; [by vm_compute|].
  intros Heq. vm_compute in Heq. discriminate.
Qed.

(** A step whose physics raised, without the info normaliser in between:
    the lookup of ["cost"] fails. *)
Lemma step_KeyError_iff_witness :
  env_step (sim f0_5 info_exception) () 0
  = (inr (0, f0_5, false, info_exception), 1)
  ∧ step (__init__ (sim f0_5 info_exception)) () 0
    = (inl (KeyError "cost"), 1).
Proof.
  split; [reflexivity|].
  apply (step_KeyError_iff (__init__ (sim f0_5 info_exception)) () 0 1 0
                           f0_5 false info_exception); reflexivity.
Defined.

(** With the normaliser in between, the same step goes through. *)
Example step_after_normaliser :
  step (__init__ (CompleteEnvInfo.as_env
                    (CompleteEnvInfo.__init__ (sim f0_5 info_exception)
                                              "Safexp-PointGoal0-v0"))) () 0
  = (inr (0, [f0_5; S754_zero true; f0_0], false,
          {[ "cost_exception" := VFloat f1_0; "goal_met" := VBool false;
             "cost" := VFloat f0_0 ]}), 1).
Proof. by vm_compute. Qed.

End VectorRewardSamples.

(** ** The availability check *)

Section Availability.

Context (importer : string → option exn).
Implicit Types g : gmap string pyobj.

(** The guarded imports complete when an import can only fail with
    [ImportError]; any other exception leaves the module unloaded. *)
Lemma module_imports_completes g0 :
  (∀ name e, importer name = Some e → ∃ n, e = ImportError n) →
  ∃ g, module_imports importer g0 = (inr (), g).
Proof.
  intros Himp. unfold module_imports, try_except_ImportError, bind, import_.
  destruct (importer "mujoco_py") as [e1|] eqn:H1.
  - destruct (Himp _ _ H1) as [n ->]. by eexists.
  - destruct (importer "safety_gym") as [e2|] eqn:H2.
    + destruct (Himp _ _ H2) as [n ->]. by eexists.
    + by eexists.
Qed.

(** After the guarded imports both names are bound. *)
Lemma module_imports_binds g0 g :
  module_imports importer g0 = (inr (), g) →
  (g !! "mujoco_py", g !! "safety_gym")
  = match importer "mujoco_py", importer "safety_gym" with
    | None, None =>
        (Some (PyModule "mujoco_py"), Some (PyModule "safety_gym"))
    | _, _ => (Some PyNone, Some PyNone)
    end.
Proof.
  unfold module_imports, try_except_ImportError, bind, import_, assign.
  destruct (importer "mujoco_py") as [e1|];
    [destruct e1 | destruct (importer "safety_gym") as [e2|]; [destruct e2|]];
    intros [= <-]; by simplify_map_eq.
Qed.

(** C9, as amended. When the guarded imports complete, which they do
    unless an import fails with an exception other than [ImportError],
    [is_available] returns a boolean and does not raise: [True] when both
    [import mujoco_py] and [import safety_gym] succeeded, [False] when
    either of them failed; the module's globals are left as they were. *)
Theorem is_available_never_raises g0 g :
  module_imports importer g0 = (inr (), g) →
  is_available g
  = (inr match importer "mujoco_py", importer "safety_gym" with
         | None, None => true
         | _, _ => false
         end, g).
Proof.
  intros Hload. apply module_imports_binds in Hload.
  unfold is_available, bind, load_global.
  destruct (importer "mujoco_py"), (importer "safety_gym");
    injection Hload as Hm Hs; rewrite Hm; cbn [is_not_None];
    rewrite ?Hs; reflexivity.
Qed.

End Availability.

Section AvailabilitySamples.

Import Sample.

Lemma is_available_never_raises_witness :
  module_imports no_safety_gym ∅
  = (inr (), {[ "mujoco_py" := PyNone; "safety_gym" := PyNone ]})
  ∧ is_available {[ "mujoco_py" := PyNone; "safety_gym" := PyNone ]}
    = (inr false, {[ "mujoco_py" := PyNone; "safety_gym" := PyNone ]}).
Proof.
  split; [by vm_compute|].
  apply (is_available_never_raises no_safety_gym ∅). by vm_compute.
Defined.

(** C9, as stated, fails when an import fails with an exception that is not
    an [ImportError]: [import mujoco_py] fails, the exception is not caught,
    the module does not load, and no call of [is_available] returns
    [False]; on the globals left behind it raises [NameError]. *)
Lemma is_available_never_raises_counterexample :
  broken_mujoco "mujoco_py" = Some (OtherError "Exception")
  ∧ module_imports broken_mujoco ∅ = (inl (OtherError "Exception"), ∅)
  ∧ (∀ g, module_imports broken_mujoco ∅ ≠ (inr (), g))
  ∧ is_available ∅ = (inl (NameError "mujoco_py"), ∅)
  ∧ is_available ∅ ≠ (inr false, ∅).
Proof.
  split; [reflexivity|]. split; [by vm_compute|]. split; [|split].
  - intros g Hload. vm_compute in Hload. discriminate.
  - by vm_compute.
  - intros Heq. vm_compute in Heq. discriminate.
Qed.

Example is_available_all_installed :
  ∃ g, module_imports all_installed ∅ = (inr (), g)
       ∧ is_available g = (inr true, g).
Proof. eexists. split; by vm_compute. Qed.

(** Without the two assignments of the [except] branch the second name
    would be unbound and the check would raise. *)
Example is_available_unbound :
  is_available {[ "mujoco_py" := PyModule "mujoco_py" ]}
  = (inl (NameError "safety_gym"), {[ "mujoco_py" := PyModule "mujoco_py" ]}).
Proof. by vm_compute. Qed.

End AvailabilitySamples.

(** ** load *)

Section LoadFacts.

Context {num : Type} `{!Floats num} {action obs St : Type}.
Context {EnvId Discount GymWrappers AlfWrappers AlfEnvironment : Type}.
Context (gym_make : string → exn + @Engine num action obs St).
Context (wrap_env : @wrap_env_args num action obs St EnvId Discount
                                   GymWrappers AlfWrappers
                    → exn + AlfEnvironment).

(** [env.num_steps] goes through both wrappers to the simulator. *)
Lemma suite_num_steps_engine (e : @Engine num action obs St)
      (environment_name : string) (unconstrained : bool) :
  let env := CompleteEnvInfo.__init__ (Engine_as_env e) environment_name in
  suite_num_steps
    (if negb unconstrained
     then Constrained (VectorReward.__init__ (CompleteEnvInfo.as_env env))
     else Unconstrained env)
  = num_steps e.
Proof. by destruct unconstrained. Qed.

Lemma step_limit_cases (N : Z) (L : option Z) :
  step_limit N L
  = match L with
    | None => N - 1
    | Some l => if decide (l = 0) then N - 1 else Z.min (N - 1) l
    end.
Proof.
  unfold step_limit, py_not. destruct L as [l|]; [|lia].
  case_decide as Hl; [subst l; simpl; lia|].
  by rewrite (proj2 (Z.eqb_neq l 0) Hl).
Qed.

(** An unknown name: the registry's exception comes out of [load]. *)
Lemma load_unknown_name (environment_name : string) (env_id : EnvId)
      (discount : Discount) (L : option Z) (unconstrained : bool)
      (gw : GymWrappers) (aw : AlfWrappers) (e : exn) :
  gym_make environment_name = inl e →
  load gym_make wrap_env environment_name env_id discount L unconstrained
       gw aw = inl e.
Proof. intros Hmake. unfold load, load_args. by rewrite Hmake. Qed.

(** C2. [load] passes to [wrap_env] the step limit [N - 1] when the
    caller's [max_episode_steps] is [None] or [0], and [min (N - 1) L]
    otherwise, where [N] is the simulator's [num_steps]; so the limit is at
    most [N - 1], and at most [L] when [L] is positive. *)
Theorem load_step_limit (environment_name : string) (env_id : EnvId)
        (discount : Discount) (L : option Z) (unconstrained : bool)
        (gw : GymWrappers) (aw : AlfWrappers) (e : @Engine num action obs St) :
  gym_make environment_name = inr e →
  ∃ args,
    load_args gym_make environment_name env_id discount L unconstrained gw aw
    = inr args
    ∧ load gym_make wrap_env environment_name env_id discount L
           unconstrained gw aw = wrap_env args
    ∧ (L = None ∨ L = Some 0 →
       arg_max_episode_steps args = num_steps e - 1)
    ∧ (∀ l, L = Some l → l ≠ 0 →
            arg_max_episode_steps args = Z.min (num_steps e - 1) l)
    ∧ arg_max_episode_steps args ≤ num_steps e - 1
    ∧ (∀ l, L = Some l → 0 < l → arg_max_episode_steps args ≤ l).
Proof.
  intros Hmake. unfold load, load_args. rewrite Hmake.
  eexists. split; [reflexivity|]. split; [reflexivity|].
  cbn [arg_max_episode_steps].
  rewrite suite_num_steps_engine, step_limit_cases.
  split; [|split; [|split]].
  - by intros [->| ->].
  - intros l -> Hl. by rewrite decide_False.
  - destruct L as [l|]; [case_decide|]; lia.
  - intros l -> Hl. rewrite decide_False by lia. lia.
Qed.

(** C5. With [unconstrained] set, the environment [load] hands to
    [wrap_env] is the info normaliser around the simulator and nothing
    else: no [VectorReward] is applied, a step returns the simulator's
    scalar reward, and the environment has no [reward_space]. *)
Theorem load_unconstrained (environment_name : string) (env_id : EnvId)
        (discount : Discount) (L : option Z) (gw : GymWrappers)
        (aw : AlfWrappers) (e : @Engine num action obs St) :
  gym_make environment_name = inr e →
  ∃ args,
    load_args gym_make environment_name env_id discount L true gw aw
    = inr args
    ∧ load gym_make wrap_env environment_name env_id discount L true gw aw
      = wrap_env args
    ∧ arg_env args
      = Unconstrained
          (CompleteEnvInfo.__init__ (Engine_as_env e) environment_name)
    ∧ suite_reward_space (arg_env args) = None
    ∧ (∀ (a : action) (st st' : St) (o : obs) (r : num) (d : bool) info,
         engine_step e a st = (inr (o, r, d, info), st') →
         ∃ env_info,
           CompleteEnvInfo.step
             (CompleteEnvInfo.__init__ (Engine_as_env e) environment_name)
             a st
           = (inr (o, r, d, env_info), st')).
Proof.
  intros Hmake. unfold load, load_args. rewrite Hmake.
  eexists. split; [reflexivity|]. split; [reflexivity|].
  split; [reflexivity|]. split; [reflexivity|].
  intros a st st' o r d info Hstep. eexists.
  by apply CompleteEnvInfo_step_inr.
Qed.

(** Without the flag the environment is the reward vectoriser around the
    normaliser, with a reward space of shape [[3]]. *)
Lemma load_constrained (environment_name : string) (env_id : EnvId)
      (discount : Discount) (L : option Z) (gw : GymWrappers)
      (aw : AlfWrappers) (e : @Engine num action obs St) :
  gym_make environment_name = inr e →
  ∃ args,
    load_args gym_make environment_name env_id discount L false gw aw
    = inr args
    ∧ arg_env args
      = Constrained
          (VectorReward.__init__
             (CompleteEnvInfo.as_env
                (CompleteEnvInfo.__init__ (Engine_as_env e)
                                          environment_name)))
    ∧ suite_reward_space (arg_env args)
      = Some (mkBox (fneg float_inf) float_inf [3]).
Proof.
  intros Hmake. unfold load_args. rewrite Hmake. by eexists.
Qed.

End LoadFacts.

(** ** load on the sample registry *)

Section LoadSamples.

Import Sample.

Example sample_limit_None : sample_limit None false = inr 999.
Proof. reflexivity. Qed.

Example sample_limit_0 : sample_limit (Some 0) false = inr 999.
Proof. reflexivity. Qed.

Example sample_limit_500 : sample_limit (Some 500) false = inr 500.
Proof. reflexivity. Qed.

Example sample_limit_2000 : sample_limit (Some 2000) true = inr 999.
Proof. reflexivity. Qed.

(** A negative limit is neither [None] nor [0]: it is passed on. *)
Example sample_limit_negative : sample_limit (Some (-5)) false = inr (-5).
Proof. reflexivity. Qed.

Lemma load_step_limit_witness :
  gym_make "Safexp-PointGoal1-v0" = inr (engine f0_1 info_hazard)
  ∧ ∃ args,
      load_args gym_make "Safexp-PointGoal1-v0" (None : option Z) f1_0
                (Some 500) false ([] : list string) ([] : list string)
      = inr args
      ∧ load gym_make wrap_env "Safexp-PointGoal1-v0" None f1_0
             (Some 500) false [] [] = wrap_env args
      ∧ (Some 500 = None ∨ Some 500 = Some 0 →
         arg_max_episode_steps args = num_steps (engine f0_1 info_hazard) - 1)
      ∧ (∀ l, Some 500 = Some l → l ≠ 0 →
              arg_max_episode_steps args
              = Z.min (num_steps (engine f0_1 info_hazard) - 1) l)
      ∧ arg_max_episode_steps args
        ≤ num_steps (engine f0_1 info_hazard) - 1
      ∧ (∀ l, Some 500 = Some l → 0 < l →
              arg_max_episode_steps args ≤ l).
Proof.
  split; [reflexivity|].
  apply (load_step_limit gym_make wrap_env "Safexp-PointGoal1-v0" None f1_0
                         (Some 500) false [] [] (engine f0_1 info_hazard)).
  reflexivity.
Defined.

Lemma load_unconstrained_witness :
  gym_make "Safexp-PointGoal0-v0" = inr (engine f0_1 info_goal)
  ∧ ∃ args,
      load_args gym_make "Safexp-PointGoal0-v0" (None : option Z) f1_0
                None true ([] : list string) ([] : list string)
      = inr args
      ∧ load gym_make wrap_env "Safexp-PointGoal0-v0" None f1_0 None true
             [] [] = wrap_env args
      ∧ arg_env args
        = Unconstrained
            (CompleteEnvInfo.__init__ (Engine_as_env (engine f0_1 info_goal))
                                      "Safexp-PointGoal0-v0")
      ∧ suite_reward_space (arg_env args) = None
      ∧ (∀ (a : unit) (st st' : Z) (o : Z) (r : spec_float) (d : bool) info,
           engine_step (engine f0_1 info_goal) a st
           = (inr (o, r, d, info), st') →
           ∃ env_info,
             CompleteEnvInfo.step
               (CompleteEnvInfo.__init__
                  (Engine_as_env (engine f0_1 info_goal))
                  "Safexp-PointGoal0-v0") a st
             = (inr (o, r, d, env_info), st')).
Proof.
  split; [reflexivity|].
  apply (load_unconstrained gym_make wrap_env "Safexp-PointGoal0-v0" None
                            f1_0 None [] [] (engine f0_1 info_goal)).
  reflexivity.
Defined.

(** The scalar reward 0.1 comes through as it is. *)
Example load_unconstrained_step :
  CompleteEnvInfo.step
    (CompleteEnvInfo.__init__ (Engine_as_env (engine f0_1 info_goal))
                              "Safexp-PointGoal0-v0") () 0
  = (inr (0, f0_1, false,
          {[ "cost_exception" := VFloat f0_0; "goal_met" := VBool true;
             "cost" := VFloat f1_0 ]}), 1).
Proof. by vm_compute. Qed.

End LoadSamples.

(** * Further properties *)

(** ** The merged record of CompleteEnvInfo *)

Section CompleteEnvInfoMore.

Context {num : Type} `{!Floats num} {action obs St R : Type}.
Implicit Types env : GymEnv num action obs St R.
Implicit Types info env_info : gmap string (value num).

Import CompleteEnvInfo.

(** A default record only depends on which keys are listed. *)
Lemma default_env_info_ext (keys1 keys2 : list string) :
  (∀ key, key ∈ keys1 ↔ key ∈ keys2) →
  _generate_default_env_info (num := num) keys1
  = _generate_default_env_info keys2.
Proof.
  intros Hkeys. apply map_eq. intros key.
  rewrite !lookup_default_env_info.
  destruct (decide (key ∈ keys1)) as [H1|H1],
           (decide (key ∈ keys2)) as [H2|H2]; try done.
  - by apply Hkeys in H1.
  - by apply Hkeys in H2.
Qed.

(** Overlaying a default record with one for fewer keys changes nothing,
    on either side. *)
Lemma default_env_info_absorb (keys1 keys2 : list string) :
  (∀ key, key ∈ keys1 → key ∈ keys2) →
  dict_update (_generate_default_env_info (num := num) keys1)
              (_generate_default_env_info keys2)
  = _generate_default_env_info keys2
  ∧ dict_update (_generate_default_env_info (num := num) keys2)
                (_generate_default_env_info keys1)
    = _generate_default_env_info keys2.
Proof.
  intros Hsub. split; apply map_eq; intros key;
    rewrite lookup_dict_update, !lookup_default_env_info;
    destruct (decide (key ∈ keys1)) as [H1|H1],
             (decide (key ∈ keys2)) as [H2|H2]; try done.
  all: by apply Hsub in H1.
Qed.

Lemma base_keys_in_init env (env_name : string) (key : string) :
  key ∈ base_keys → key ∈ _env_info_keys (__init__ env env_name).
Proof.
  intros Hkey. unfold __init__, _is_level0_env. cbn [_env_info_keys].
  destruct (str_in "0-v" env_name); cbn [negb]; [done|].
  apply elem_of_app. by left.
Qed.

Lemma dom_step_record env (env_name : string) info :
  dom (dict_update (_default_env_info (__init__ env env_name)) info)
  = expected_key_set env_name ∪ dom info.
Proof.
  by rewrite dom_dict_update, default_init, dom_default_env_info, keys_init.
Qed.

(** X1. The record [step] returns, key by key: the reported value when the
    wrapped step reported the key; otherwise the default of the key when
    it is an expected key; otherwise nothing. *)
Theorem step_lookup env (env_name : string) (a : action) (st st' : St)
        (o : obs) (r : R) (d : bool) info (key : string) :
  env_step env a st = (inr (o, r, d, info), st') →
  ∃ env_info,
    step (__init__ env env_name) a st = (inr (o, r, d, env_info), st')
    ∧ env_info !! key
      = match info !! key with
        | Some v => Some v
        | None =>
            if decide (key ∈ expected_key_set env_name)
            then Some (if decide (key = "goal_met") then VBool false
                       else VFloat (float32 (of_int 0)))
            else None
        end.
Proof.
  intros Hstep. eexists. split; [by apply CompleteEnvInfo_step_inr|].
  rewrite lookup_dict_update. destruct (info !! key) as [v|]; [done|].
  rewrite default_init, lookup_default_env_info, default_value_cases.
  rewrite <- (keys_init env env_name).
  destruct (decide (key ∈ _env_info_keys (__init__ env env_name)))
    as [Hin|Hnin];
    destruct (decide (key ∈ (list_to_set (_env_info_keys
                                            (__init__ env env_name))
                             : gset string))) as [Hin'|Hnin']; try done.
  - exfalso. apply Hnin'. by apply elem_of_list_to_set.
  - exfalso. apply Hnin. by apply elem_of_list_to_set in Hin'.
Qed.

(** X2. Fixed shape: any two steps of the wrapper whose reported keys are
    among the expected ones return records with the same key set, whatever
    each of them reported. *)
Theorem step_fixed_shape env (env_name : string) (a1 a2 : action)
        (st1 st1' st2 st2' : St) (o1 o2 : obs) (r1 r2 : R) (d1 d2 : bool)
        info1 info2 env_info1 env_info2 :
  env_step env a1 st1 = (inr (o1, r1, d1, info1), st1') →
  env_step env a2 st2 = (inr (o2, r2, d2, info2), st2') →
  dom info1 ⊆ expected_key_set env_name →
  dom info2 ⊆ expected_key_set env_name →
  step (__init__ env env_name) a1 st1 = (inr (o1, r1, d1, env_info1), st1') →
  step (__init__ env env_name) a2 st2 = (inr (o2, r2, d2, env_info2), st2') →
  dom env_info1 = dom env_info2.
Proof.
  intros Hs1 Hs2 Hsub1 Hsub2 Hw1 Hw2.
  rewrite (CompleteEnvInfo_step_inr (__init__ env env_name) _ _ _ _ _ _ _ Hs1)
    in Hw1.
  rewrite (CompleteEnvInfo_step_inr (__init__ env env_name) _ _ _ _ _ _ _ Hs2)
    in Hw2.
  assert (env_info1
          = dict_update (_default_env_info (__init__ env env_name)) info1)
    as -> by congruence.
  assert (env_info2
          = dict_update (_default_env_info (__init__ env env_name)) info2)
    as -> by congruence.
  rewrite !dom_step_record.
  rewrite (comm_L (∪) _ (dom info1)), (subseteq_union_1_L _ _ Hsub1).
  by rewrite (comm_L (∪) _ (dom info2)), (subseteq_union_1_L _ _ Hsub2).
Qed.

(** X3. Wrapping twice is wrapping once: a normaliser around a normaliser
    steps like a single one, built for the inner name unless that one is
    of level 0, and then for the outer name. *)
Theorem step_wrapped_twice env (inner_name outer_name : string) (a : action)
        (st : St) :
  step (__init__ (as_env (__init__ env inner_name)) outer_name) a st
  = step (__init__ env (if _is_level0_env inner_name then outer_name
                        else inner_name)) a st.
Proof.
  destruct (env_step env a st) as [[e|[[[o r] d] info]] st'] eqn:Hs.
  - rewrite (CompleteEnvInfo_step_inl
               (__init__ (as_env (__init__ env inner_name)) outer_name)
               a st st' e);
      [|by apply (CompleteEnvInfo_step_inl (__init__ env inner_name))].
    symmetry.
    by apply (CompleteEnvInfo_step_inl
                (__init__ env (if _is_level0_env inner_name then outer_name
                               else inner_name))).
  - rewrite (CompleteEnvInfo_step_inr
               (__init__ (as_env (__init__ env inner_name)) outer_name)
               a st st' o r d
               (dict_update (_default_env_info (__init__ env inner_name))
                            info));
      [|by apply (CompleteEnvInfo_step_inr (__init__ env inner_name))].
    rewrite (CompleteEnvInfo_step_inr
               (__init__ env (if _is_level0_env inner_name then outer_name
                              else inner_name)) _ _ _ _ _ _ _ Hs).
    do 3 f_equal. unfold dict_update. rewrite <- (assoc_L (∪)). f_equal.
    change (dict_update (_default_env_info
                           (__init__ (as_env (__init__ env inner_name))
                                     outer_name))
                        (_default_env_info (__init__ env inner_name))
            = _default_env_info
                (__init__ env (if _is_level0_env inner_name then outer_name
                               else inner_name))).
    rewrite !default_init. unfold __init__. cbn [_env_info_keys].
    destruct (_is_level0_env inner_name) eqn:Hinner; cbn [negb];
      rewrite ?Hinner; cbn [negb].
    + apply default_env_info_absorb. intros key Hkey.
      destruct (_is_level0_env outer_name); cbn [negb]; [done|].
      apply elem_of_app. by left.
    + assert (∀ key,
                key ∈ (if negb (_is_level0_env outer_name)
                       then (base_keys ++ constraint_keys)%list
                       else base_keys) →
                key ∈ (base_keys ++ constraint_keys)%list) as Hsub.
      { intros key Hkey.
        destruct (_is_level0_env outer_name); cbn [negb] in Hkey; [|done].
        apply elem_of_app. by left. }
      apply (proj1 (default_env_info_absorb _ _ Hsub)).
Qed.

(** X4. The default record is the same for two key lists with the same
    members: neither the order of [_env_info_keys] nor a repeated key
    changes it, and it has one entry per distinct key. *)
Theorem default_env_info_key_set (keys1 keys2 : list string) :
  (∀ key, key ∈ keys1 ↔ key ∈ keys2) →
  _generate_default_env_info (num := num) keys1
  = _generate_default_env_info keys2
  ∧ size (_generate_default_env_info (num := num) keys1)
    = size (list_to_set keys2 : gset string).
Proof.
  intros Hkeys. split; [by apply default_env_info_ext|].
  rewrite <- size_dom, dom_default_env_info. f_equal.
  apply set_eq. intros key. by rewrite !elem_of_list_to_set.
Qed.

End CompleteEnvInfoMore.

(** ** The outcomes of VectorReward.step *)

Section VectorRewardMore.

Context {num : Type} `{!Floats num} {action obs St : Type}.
Implicit Types self : VectorReward.t num action obs St.
Implicit Types info : gmap string (value num).

Import VectorReward.

Lemma VectorReward_step_inl self (a : action) (st st' : St) (e : exn) :
  env_step (env self) a st = (inl e, st') →
  step self a st = (inl e, st').
Proof. intros Hs. unfold step. by rewrite (bind_inl _ _ _ _ _ Hs). Qed.

(** X5. What [step] can raise: the exception of the wrapped step; a
    [KeyError] for ["cost"], or one for ["goal_met"] when ["cost"] is
    there; or, with both keys there, an [OverflowError] because
    [float(goal_met)] raises or the negated cost is an [int] too large for
    the array; nothing else.  In each case the simulator is left as the
    wrapped step left it, so these errors come after the simulator has
    advanced. *)
Theorem step_raises_inv self (a : action) (st st' : St) (e : exn) :
  step self a st = (inl e, st') →
  env_step (env self) a st = (inl e, st')
  ∨ ∃ o r d info,
      env_step (env self) a st = (inr (o, r, d, info), st')
      ∧ (e = KeyError "cost" ∧ info !! "cost" = None
         ∨ e = KeyError "goal_met" ∧ is_Some (info !! "cost")
           ∧ info !! "goal_met" = None
         ∨ e = OverflowError
           ∧ ∃ cost goal_met,
               info !! "cost" = Some cost
               ∧ info !! "goal_met" = Some goal_met
               ∧ (py_float goal_met = inl OverflowError
                  ∨ np_float32 (py_neg cost) = inl OverflowError)).
Proof.
  destruct (env_step (env self) a st) as [[e0|[[[o r] d] info]] st0] eqn:Hs.
  - unfold step. rewrite (bind_inl _ _ _ _ _ Hs). intros [= -> ->]. by left.
  - destruct (info !! "cost") as [cost|] eqn:Hcost;
      [destruct (info !! "goal_met") as [goal_met|] eqn:Hgoal|].
    + destruct (VectorReward_step_both_keys _ _ _ _ _ _ _ _ _ _
                  Hs Hcost Hgoal)
        as [(success & x & _ & _ & ->)|[-> Hwhy]]; [done|].
      intros [= <- <-]. right. exists o, r, d, info.
      split; [done|]. right. right. split; [done|].
      exists cost, goal_met. by rewrite Hcost, Hgoal.
    + rewrite (VectorReward_step_no_goal_met _ _ _ _ _ _ _ _ _
                 Hs Hcost Hgoal).
      intros [= <- <-]. right. exists o, r, d, info.
      split; [done|]. right. left. rewrite Hcost. by eauto.
    + rewrite (VectorReward_step_no_cost _ _ _ _ _ _ _ _ Hs Hcost).
      intros [= <- <-]. right. exists o, r, d, info.
      split; [done|]. by left.
Qed.

(** X6. What [step] returns: the wrapped step returned the same
    observation, done flag and info dict, the info dict holds both keys,
    [float] of the goal flag did not raise, and the reward is the float32
    array of the wrapped reward, minus the cost and [float] of the goal
    flag.  Its length is the one dimension of [reward_space]. *)
Theorem step_returns_inv (env : GymEnv num action obs St num) (a : action)
        (st st' : St) (o : obs) (reward : list num) (d : bool) info :
  step (__init__ env) a st = (inr (o, reward, d, info), st') →
  ∃ r cost goal_met success,
    env_step env a st = (inr (o, r, d, info), st')
    ∧ info !! "cost" = Some cost
    ∧ info !! "goal_met" = Some goal_met
    ∧ py_float goal_met = inr success
    ∧ np_array_float32 [VFloat r; py_neg cost; VFloat success] = inr reward
    ∧ shape (reward_space (__init__ env)) = [Z.of_nat (length reward)].
Proof.
  destruct (env_step env a st) as [[e0|[[[o0 r] d0] info0]] st0] eqn:Hs.
  - by rewrite (VectorReward_step_inl (__init__ env) _ _ _ _ Hs).
  - destruct (info0 !! "cost") as [cost|] eqn:Hcost;
      [destruct (info0 !! "goal_met") as [goal_met|] eqn:Hgoal|].
    + destruct (VectorReward_step_both_keys (__init__ env) _ _ _ _ _ _ _ _ _
                  Hs Hcost Hgoal)
        as [(success & x & Hfloat & Hneg & ->)|[-> _]]; [|done].
      intros [= <- <- <- <- <-]. exists r, cost, goal_met, success.
      rewrite np_array_float32_triple, Hneg. by rewrite Hcost, Hgoal.
    + by rewrite (VectorReward_step_no_goal_met (__init__ env)
                    _ _ _ _ _ _ _ _ Hs Hcost Hgoal).
    + by rewrite (VectorReward_step_no_cost (__init__ env)
                    _ _ _ _ _ _ _ Hs Hcost).
Qed.

(** The normaliser always provides the two keys the vectoriser reads. *)
Lemma normalised_lookup_base (env : GymEnv num action obs St num)
      (env_name : string) info (key : string) :
  key ∈ CompleteEnvInfo.base_keys →
  dict_update (CompleteEnvInfo._default_env_info
                 (CompleteEnvInfo.__init__ env env_name)) info !! key
  = Some (match info !! key with
          | Some v => v
          | None => CompleteEnvInfo.default_value key
          end).
Proof.
  intros Hkey. rewrite lookup_dict_update.
  destruct (info !! key) as [v|]; [done|].
  rewrite default_init, lookup_default_env_info.
  rewrite decide_True; [done|]. by apply base_keys_in_init.
Qed.

Lemma cost_in_base_keys : "cost" ∈ CompleteEnvInfo.base_keys.
Proof. apply (bool_decide_unpack _). by vm_compute. Qed.

Lemma goal_met_in_base_keys : "goal_met" ∈ CompleteEnvInfo.base_keys.
Proof. apply (bool_decide_unpack _). by vm_compute. Qed.

(** One step of the vectoriser around the normaliser: the two values it
    reads are the reported ones, or the defaults. *)
Lemma pipeline_step (env : GymEnv num action obs St num) (env_name : string)
      (a : action) (st st' : St) (o : obs) (r : num) (d : bool) info :
  env_step env a st = (inr (o, r, d, info), st') →
  let env_info :=
    dict_update (CompleteEnvInfo._default_env_info
                   (CompleteEnvInfo.__init__ env env_name)) info in
  let cost := match info !! "cost" with
              | Some v => v
              | None => CompleteEnvInfo.default_value "cost"
              end in
  let goal_met := match info !! "goal_met" with
                  | Some v => v
                  | None => CompleteEnvInfo.default_value "goal_met"
                  end in
  let v := __init__ (CompleteEnvInfo.as_env
                       (CompleteEnvInfo.__init__ env env_name)) in
  (∃ success x,
     py_float goal_met = inr success
     ∧ np_float32 (py_neg cost) = inr x
     ∧ step v a st
       = (inr (o, [float32 r; x; float32 success], d, env_info), st'))
  ∨ (step v a st = (inl OverflowError, st')
     ∧ (py_float goal_met = inl OverflowError
        ∨ np_float32 (py_neg cost) = inl OverflowError)).
Proof.
  intros Hs env_info cost goal_met v.
  apply (VectorReward_step_both_keys v).
  - by apply (CompleteEnvInfo_step_inr (CompleteEnvInfo.__init__ env env_name)).
  - apply normalised_lookup_base, cost_in_base_keys.
  - apply normalised_lookup_base, goal_met_in_base_keys.
Qed.

(** X7. On a step where the simulator reports neither ["cost"] nor
    ["goal_met"] (for instance when only ["cost_exception"] is set), the
    vectoriser around the normaliser returns the neutral vector: the
    reward, minus a float32 zero, and 0.0. *)
Theorem pipeline_neutral_reward (env : GymEnv num action obs St num)
        (env_name : string) (a : action) (st st' : St) (o : obs) (r : num)
        (d : bool) info :
  env_step env a st = (inr (o, r, d, info), st') →
  info !! "cost" = None →
  info !! "goal_met" = None →
  ∃ env_info,
    step (__init__ (CompleteEnvInfo.as_env
                      (CompleteEnvInfo.__init__ env env_name))) a st
    = (inr (o,
            [float32 r; float32 (fneg (float32 (of_int 0)));
             float32 (of_int 0)],
            d, env_info), st')
    ∧ env_info !! "cost" = Some (VFloat (float32 (of_int 0)))
    ∧ env_info !! "goal_met" = Some (VBool false).
Proof.
  intros Hs Hcost Hgoal. eexists. split; [|split].
  - destruct (pipeline_step env env_name _ _ _ _ _ _ _ Hs)
      as [(success & x & Hfloat & Hneg & ->)|[_ [Hfloat|Hneg]]];
      rewrite ?Hcost, ?Hgoal in *; cbn in Hfloat || cbn in Hneg.
    + cbn in Hneg. by injection Hfloat as <-; injection Hneg as <-.
    + discriminate.
    + discriminate.
  - rewrite (normalised_lookup_base _ _ _ _ cost_in_base_keys).
    by rewrite Hcost.
  - rewrite (normalised_lookup_base _ _ _ _ goal_met_in_base_keys).
    by rewrite Hgoal.
Qed.

End VectorRewardMore.

(** ** load, continued *)

Section LoadMore.

Context {num : Type} `{!Floats num} {action obs St : Type}.
Context {EnvId Discount GymWrappers AlfWrappers AlfEnvironment : Type}.
Context (gym_make : string → exn + @Engine num action obs St).
Context (wrap_env : @wrap_env_args num action obs St EnvId Discount
                                   GymWrappers AlfWrappers
                    → exn + AlfEnvironment).

(** X8. The environment [load] builds without the [unconstrained] flag
    needs no key from the simulator: when the simulator's step returns, a
    step returns the same observation and done flag, a reward vector of
    length 3 and the simulator's info dict overlaid on the defaults, and
    the [KeyError] of the vectoriser cannot occur behind the normaliser.
    The one failure of its own is the [OverflowError] for a reported
    ["goal_met"], or a negated reported ["cost"], that is an [int] too
    large for a float; what the simulator raises comes out unchanged. *)
Theorem load_constrained_step (environment_name : string) (env_id : EnvId)
        (discount : Discount) (L : option Z) (gw : GymWrappers)
        (aw : AlfWrappers) (e : @Engine num action obs St) :
  gym_make environment_name = inr e →
  ∃ args v,
    load_args gym_make environment_name env_id discount L false gw aw
    = inr args
    ∧ arg_env args = Constrained v
    ∧ ∀ (a : action) (st : St),
        match engine_step e a st with
        | (inr (o, r, d, info), st') =>
            (∃ reward env_info,
               VectorReward.step v a st
               = (inr (o, reward, d, env_info), st')
               ∧ length reward = 3%nat
               ∧ info ⊆ env_info)
            ∨ (VectorReward.step v a st = (inl OverflowError, st')
               ∧ ∃ i, int_overflows i = true
                      ∧ (info !! "goal_met" = Some (VInt i)
                         ∨ py_neg <$> info !! "cost" = Some (VInt i)))
        | (inl ex, st') => VectorReward.step v a st = (inl ex, st')
        end.
Proof.
  intros Hmake. unfold load_args. rewrite Hmake.
  eexists. eexists. split; [reflexivity|]. split; [reflexivity|].
  intros a st.
  destruct (engine_step e a st) as [[ex|[[[o r] d] info]] st'] eqn:Hs.
  - apply VectorReward_step_inl.
    by apply (CompleteEnvInfo_step_inl
                (CompleteEnvInfo.__init__ (Engine_as_env e)
                                          environment_name)).
  - destruct (pipeline_step (Engine_as_env e) environment_name
                            a st st' o r d info Hs)
      as [(success & x & _ & _ & Hstep)|[Hstep Hwhy]].
    + left. eexists. eexists. split; [exact Hstep|].
      split; [reflexivity|]. apply map_union_subseteq_l.
    + right. split; [exact Hstep|].
      destruct Hwhy as [Hfloat|Hneg].
      * apply py_float_inl in Hfloat as [_ (i & Hi & Hover)].
        exists i. split; [done|]. left.
        destruct (info !! "goal_met") as [v|]; [by rewrite Hi|].
        discriminate.
      * apply np_float32_inl in Hneg as [_ (i & Hi & Hover)].
        exists i. split; [done|]. right.
        destruct (info !! "cost") as [v|]; [cbn; by rewrite Hi|].
        discriminate.
Qed.

(** X10. The step limit is stable: calling [load] again with the limit
    it passed on gives the same limit. *)
Theorem load_step_limit_idempotent (environment_name : string)
        (env_id : EnvId) (discount : Discount) (L : option Z)
        (unconstrained : bool) (gw : GymWrappers) (aw : AlfWrappers)
        (args : wrap_env_args) :
  load_args gym_make environment_name env_id discount L unconstrained gw aw
  = inr args →
  ∃ args',
    load_args gym_make environment_name env_id discount
              (Some (arg_max_episode_steps args)) unconstrained gw aw
    = inr args'
    ∧ arg_max_episode_steps args' = arg_max_episode_steps args
    ∧ arg_env args' = arg_env args.
Proof.
  unfold load_args. destruct (gym_make environment_name) as [ex|e]; [done|].
  intros [= <-]. eexists. split; [reflexivity|]. split; [|reflexivity].
  cbn [arg_max_episode_steps].
  rewrite suite_num_steps_engine.
  rewrite (step_limit_cases (num_steps e) (Some (step_limit (num_steps e) L))).
  rewrite (step_limit_cases (num_steps e) L).
  destruct L as [l|]; repeat case_decide; lia.
Qed.

(** X11. Between two caller limits other than [0] the step limit is
    monotone, and no caller limit gives more than [None] does. *)
Theorem step_limit_monotone (N l1 l2 : Z) :
  l1 ≠ 0 → l2 ≠ 0 → l1 ≤ l2 →
  step_limit N (Some l1) ≤ step_limit N (Some l2)
  ∧ step_limit N (Some l2) ≤ step_limit N None.
Proof.
  intros H1 H2 Hle. rewrite !step_limit_cases.
  rewrite !decide_False by done. lia.
Qed.

End LoadMore.

(** ** The guarded imports, continued *)

Section AvailabilityMore.

Context (importer : string → option exn).
Implicit Types g : gmap string pyobj.

(** X12. After the guarded imports the two names are bound together:
    both to their modules, or both to [None], also when [mujoco_py] was
    imported and only [safety_gym] is missing.  No other global of the
    module is touched. *)
Theorem module_imports_both_or_none g0 g :
  module_imports importer g0 = (inr (), g) →
  (g !! "mujoco_py" = Some (PyModule "mujoco_py")
   ∧ g !! "safety_gym" = Some (PyModule "safety_gym")
   ∧ importer "mujoco_py" = None ∧ importer "safety_gym" = None
   ∨ g !! "mujoco_py" = Some PyNone ∧ g !! "safety_gym" = Some PyNone)
  ∧ ∀ name, name ≠ "mujoco_py" → name ≠ "safety_gym" →
            g !! name = g0 !! name.
Proof.
  intros Hload. split.
  - apply module_imports_binds in Hload.
    destruct (importer "mujoco_py"), (importer "safety_gym");
      injection Hload as Hm Hs; by eauto.
  - intros name Hm Hs. revert Hload.
    unfold module_imports, try_except_ImportError, bind, import_, assign.
    destruct (importer "mujoco_py") as [e1|];
      [destruct e1 | destruct (importer "safety_gym") as [e2|]; [destruct e2|]];
      intros [= <-]; by rewrite !lookup_insert_ne.
Qed.

(** X13. The guarded imports fail exactly when the first import that
    raises does so with an exception other than [ImportError]; that
    exception leaves the module unloaded. *)
Theorem module_imports_fails_iff g0 (e : exn) :
  (∃ g, module_imports importer g0 = (inl e, g))
  ↔ is_ImportError e = false
    ∧ (importer "mujoco_py" = Some e
       ∨ importer "mujoco_py" = None ∧ importer "safety_gym" = Some e).
Proof.
  unfold module_imports, try_except_ImportError, bind, import_, assign.
  destruct (importer "mujoco_py") as [e1|];
    [|destruct (importer "safety_gym") as [e2|]].
  - destruct e1; split.
    all: try (intros [g [= <-]]; split; [done|by left]).
    all: try (intros [g [=]]).
    all: intros [He [[= <-]|[[=] _]]]; try done; by eexists.
  - destruct e2; split.
    all: try (intros [g [= <-]]; split; [done|by right]).
    all: try (intros [g [=]]).
    all: intros [He [[=]|[_ [= <-]]]]; try done; by eexists.
  - split; [intros [g [=]] | intros [_ [[=]|[_ [=]]]]].
Qed.

(** X14. On any globals, [is_available] returns [True] exactly when both
    names are bound to modules, and it never rebinds a name. *)
Theorem is_available_true_iff g :
  (is_available g = (inr true, g)
   ↔ ∃ m s, g !! "mujoco_py" = Some (PyModule m)
            ∧ g !! "safety_gym" = Some (PyModule s))
  ∧ (is_available g).2 = g.
Proof.
  unfold is_available, bind, load_global, ret.
  destruct (g !! "mujoco_py") as [[|m]|]; cbn [is_not_None];
    [| destruct (g !! "safety_gym") as [[|s]|]; cbn [is_not_None] |].
  all: split; [split|reflexivity].
  all: first [ by intros [=]
             | by intros (m' & s' & [=] & _)
             | by intros (m' & s' & _ & [=])
             | by eauto ].
Qed.

End AvailabilityMore.

(** ** The further properties on the sample environments *)

Section MoreSamples.

Import Sample.

(** A key that is neither reported nor expected is absent. *)
Lemma step_lookup_witness :
  env_step (sim f0_5 info_exception) () 0
  = (inr (0, f0_5, false, info_exception), 1)
  ∧ ∃ env_info,
      CompleteEnvInfo.step
        (CompleteEnvInfo.__init__ (sim f0_5 info_exception)
                                  "Safexp-PointGoal0-v0") () 0
      = (inr (0, f0_5, false, env_info), 1)
      ∧ env_info !! "cost_hazards"
        = match info_exception !! "cost_hazards" with
          | Some v => Some v
          | None =>
              if decide ("cost_hazards"
                         ∈ expected_key_set "Safexp-PointGoal0-v0")
              then Some (if decide ("cost_hazards" = "goal_met")
                         then VBool false
                         else VFloat (float32 (of_int 0)))
              else None
          end.
Proof.
  split; [reflexivity|].
  apply (step_lookup (sim f0_5 info_exception) "Safexp-PointGoal0-v0"
                     () 0 1 0 f0_5 false info_exception "cost_hazards").
  reflexivity.
Defined.

(** A hazard step and an exception step have records of the same shape. *)
Lemma step_fixed_shape_witness :
  dom (dict_update
         (CompleteEnvInfo._default_env_info
            (CompleteEnvInfo.__init__ sim_alternating "Safexp-PointGoal1-v0"))
         info_hazard)
  = dom (dict_update
           (CompleteEnvInfo._default_env_info
              (CompleteEnvInfo.__init__ sim_alternating
                                        "Safexp-PointGoal1-v0"))
           info_exception).
Proof.
  apply (step_fixed_shape sim_alternating "Safexp-PointGoal1-v0" () ()
                          0 1 1 2 0 1 f0_5 f0_5 false false
                          info_hazard info_exception).
  - reflexivity.
  - reflexivity.
  - apply (bool_decide_unpack _). by vm_compute.
  - apply (bool_decide_unpack _). by vm_compute.
  - reflexivity.
  - reflexivity.
Defined.

Example step_wrapped_twice_sample :
  CompleteEnvInfo.step
    (CompleteEnvInfo.__init__
       (CompleteEnvInfo.as_env
          (CompleteEnvInfo.__init__ (sim f0_5 info_exception)
                                    "Safexp-PointGoal0-v0"))
       "Safexp-PointGoal2-v0") () 0
  = CompleteEnvInfo.step
      (CompleteEnvInfo.__init__ (sim f0_5 info_exception)
                                "Safexp-PointGoal2-v0") () 0.
Proof. by vm_compute. Qed.

Lemma default_env_info_key_set_witness :
  CompleteEnvInfo._generate_default_env_info (num := spec_float)
    ["cost"; "goal_met"; "cost"]
  = CompleteEnvInfo._generate_default_env_info ["goal_met"; "cost"]
  ∧ size (CompleteEnvInfo._generate_default_env_info (num := spec_float)
            ["cost"; "goal_met"; "cost"])
    = size (list_to_set ["goal_met"; "cost"] : gset string).
Proof.
  apply (default_env_info_key_set (num := spec_float)
           ["cost"; "goal_met"; "cost"] ["goal_met"; "cost"]).
  intros key. rewrite !elem_of_cons, elem_of_nil. tauto.
Defined.

(** An [int] flag of 2^1024: [float] of it raises after the simulator has
    stepped. *)
Lemma step_raises_inv_witness :
  VectorReward.step (VectorReward.__init__ (sim f0_5 info_huge_goal)) () 0
  = (inl OverflowError, 1)
  ∧ (env_step (sim f0_5 info_huge_goal) () 0 = (inl OverflowError, 1)
     ∨ ∃ o r d info,
         env_step (sim f0_5 info_huge_goal) () 0
         = (inr (o, r, d, info), 1)
         ∧ (OverflowError = KeyError "cost" ∧ info !! "cost" = None
            ∨ OverflowError = KeyError "goal_met"
              ∧ is_Some (info !! "cost") ∧ info !! "goal_met" = None
            ∨ OverflowError = OverflowError
              ∧ ∃ cost goal_met,
                  info !! "cost" = Some cost
                  ∧ info !! "goal_met" = Some goal_met
                  ∧ (py_float goal_met = inl OverflowError
                     ∨ np_float32 (py_neg cost) = inl OverflowError))).
Proof.
  assert (VectorReward.step
            (VectorReward.__init__ (sim f0_5 info_huge_goal)) () 0
          = (inl OverflowError, 1)) as Hstep by (by vm_compute).
  split; [exact Hstep|].
  exact (step_raises_inv (VectorReward.__init__ (sim f0_5 info_huge_goal))
                         () 0 1 OverflowError Hstep).
Defined.

(** The same for an [int] cost: the array cannot hold minus 2^1024. *)
Example step_huge_cost :
  VectorReward.step (VectorReward.__init__ (sim f0_5 info_huge_cost)) () 0
  = (inl OverflowError, 1).
Proof. by vm_compute. Qed.

(** An [int] within the range is converted. *)
Example step_int_cost :
  VectorReward.step
    (VectorReward.__init__
       (sim f0_5 {[ "cost" := VInt 1; "goal_met" := VInt 0 ]})) () 0
  = (inr (0, [f0_5; fm1_0; f0_0], false,
          {[ "cost" := VInt 1; "goal_met" := VInt 0 ]}), 1).
Proof. by vm_compute. Qed.

Lemma step_returns_inv_witness :
  VectorReward.step (VectorReward.__init__ (sim f0_5 info_goal)) () 0
  = (inr (0, [f0_5; fm1_0; f1_0], false, info_goal), 1)
  ∧ ∃ r cost goal_met success,
      env_step (sim f0_5 info_goal) () 0
      = (inr (0, r, false, info_goal), 1)
      ∧ info_goal !! "cost" = Some cost
      ∧ info_goal !! "goal_met" = Some goal_met
      ∧ py_float goal_met = inr success
      ∧ np_array_float32 [VFloat r; py_neg cost; VFloat success]
        = inr [f0_5; fm1_0; f1_0]
      ∧ shape (VectorReward.reward_space
                 (VectorReward.__init__ (sim f0_5 info_goal)))
        = [Z.of_nat (length [f0_5; fm1_0; f1_0])].
Proof.
  assert (VectorReward.step (VectorReward.__init__ (sim f0_5 info_goal)) () 0
          = (inr (0, [f0_5; fm1_0; f1_0], false, info_goal), 1)) as Hstep
    by (by vm_compute).
  split; [exact Hstep|].
  exact (step_returns_inv (sim f0_5 info_goal) () 0 1 0
                          [f0_5; fm1_0; f1_0] false info_goal Hstep).
Defined.

(** The physics raised: reward 0.5, no cost (a negative zero), no goal. *)
Lemma pipeline_neutral_reward_witness :
  env_step (sim f0_5 info_exception) () 0
  = (inr (0, f0_5, false, info_exception), 1)
  ∧ info_exception !! "cost" = None
  ∧ info_exception !! "goal_met" = None
  ∧ ∃ env_info,
      VectorReward.step
        (VectorReward.__init__
           (CompleteEnvInfo.as_env
              (CompleteEnvInfo.__init__ (sim f0_5 info_exception)
                                        "Safexp-PointGoal1-v0"))) () 0
      = (inr (0,
              [float32 f0_5; float32 (fneg (float32 (of_int 0)));
               float32 (of_int 0)],
              false, env_info), 1)
      ∧ env_info !! "cost" = Some (VFloat (float32 (of_int 0)))
      ∧ env_info !! "goal_met" = Some (VBool false).
Proof.
  split; [reflexivity|]. split; [reflexivity|]. split; [reflexivity|].
  apply (pipeline_neutral_reward (sim f0_5 info_exception)
           "Safexp-PointGoal1-v0" () 0 1 0 f0_5 false info_exception);
    reflexivity.
Defined.

Example pipeline_neutral_reward_values :
  [float32 f0_5; float32 (fneg (float32 (of_int 0))); float32 (of_int 0)]
  = [f0_5; S754_zero true; f0_0].
Proof. by vm_compute. Qed.

Lemma load_constrained_step_witness :
  gym_make "Safexp-PointGoal1-v0" = inr (engine f0_1 info_hazard)
  ∧ ∃ args v,
      load_args gym_make "Safexp-PointGoal1-v0" (None : option Z) f1_0
                None false ([] : list string) ([] : list string)
      = inr args
      ∧ arg_env args = Constrained v
      ∧ ∀ (a : unit) (st : Z),
          match engine_step (engine f0_1 info_hazard) a st with
          | (inr (o, r, d, info), st') =>
              (∃ reward env_info,
                 VectorReward.step v a st
                 = (inr (o, reward, d, env_info), st')
                 ∧ length reward = 3%nat
                 ∧ info ⊆ env_info)
              ∨ (VectorReward.step v a st = (inl OverflowError, st')
                 ∧ ∃ i, int_overflows i = true
                        ∧ (info !! "goal_met" = Some (VInt i)
                           ∨ py_neg <$> info !! "cost" = Some (VInt i)))
          | (inl ex, st') => VectorReward.step v a st = (inl ex, st')
          end.
Proof.
  split; [reflexivity|].
  apply (load_constrained_step gym_make "Safexp-PointGoal1-v0" None f1_0
                               None [] [] (engine f0_1 info_hazard)).
  reflexivity.
Defined.

(** The hazard step through the whole pipeline, and a huge [int] cost
    behind the normaliser. *)
Example pipeline_hazard_step :
  VectorReward.step
    (VectorReward.__init__
       (CompleteEnvInfo.as_env
          (CompleteEnvInfo.__init__ (sim f0_5 info_hazard)
                                    "Safexp-PointGoal0-v0"))) () 0
  = (inr (0, [f0_5; fm1_0; f0_0], false,
          {[ "cost_exception" := VFloat f0_0; "goal_met" := VBool false;
             "cost" := VFloat f1_0; "cost_hazards" := VFloat f1_0 ]}), 1).
Proof. by vm_compute. Qed.

Example pipeline_huge_cost :
  VectorReward.step
    (VectorReward.__init__
       (CompleteEnvInfo.as_env
          (CompleteEnvInfo.__init__ (sim f0_5 info_huge_cost)
                                    "Safexp-PointGoal1-v0"))) () 0
  = (inl OverflowError, 1).
Proof. by vm_compute. Qed.

Example load_unregistered :
  load gym_make wrap_env "Safexp-PointGoal3-v0" None f1_0 None false [] []
  = inl (OtherError "gym.error.UnregisteredEnv").
Proof. reflexivity. Qed.

Example load_wrap_env_fails :
  load gym_make wrap_env_fails "Safexp-PointGoal1-v0" None f1_0 None false
       [] []
  = inl (OtherError "AssertionError").
Proof. reflexivity. Qed.

Lemma load_step_limit_idempotent_witness :
  ∃ args,
    load_args gym_make "Safexp-PointGoal1-v0" (None : option Z) f1_0
              (Some 2000) false ([] : list string) ([] : list string)
    = inr args
    ∧ arg_max_episode_steps args = 999
    ∧ ∃ args',
        load_args gym_make "Safexp-PointGoal1-v0" (None : option Z) f1_0
                  (Some (arg_max_episode_steps args)) false
                  ([] : list string) ([] : list string)
        = inr args'
        ∧ arg_max_episode_steps args' = arg_max_episode_steps args
        ∧ arg_env args' = arg_env args.
Proof.
  eexists. split; [reflexivity|]. split; [reflexivity|].
  apply (load_step_limit_idempotent gym_make "Safexp-PointGoal1-v0" None
                                    f1_0 (Some 2000) false [] []).
  reflexivity.
Defined.

Lemma step_limit_monotone_witness :
  500 ≠ 0 ∧ 2000 ≠ 0 ∧ 500 ≤ 2000
  ∧ step_limit 1000 (Some 500) ≤ step_limit 1000 (Some 2000)
  ∧ step_limit 1000 (Some 2000) ≤ step_limit 1000 None.
Proof.
  split; [lia|]. split; [lia|]. split; [lia|].
  apply (step_limit_monotone 1000 500 2000); lia.
Defined.

(** At [0] the limit jumps back up: [0] asks for the default. *)
Example step_limit_not_monotone_at_0 :
  step_limit 1000 (Some 0) = 999 ∧ step_limit 1000 (Some 1) = 1.
Proof. by vm_compute. Qed.

(** [mujoco_py] was imported, [safety_gym] was not: both names are [None]
    and a global that was there before is kept. *)
Lemma module_imports_both_or_none_witness :
  module_imports no_safety_gym {[ "gym" := PyModule "gym" ]}
  = (inr (), {[ "gym" := PyModule "gym"; "mujoco_py" := PyNone;
                "safety_gym" := PyNone ]})
  ∧ ({[ "gym" := PyModule "gym"; "mujoco_py" := PyNone;
        "safety_gym" := PyNone ]} : gmap string pyobj) !! "mujoco_py"
    = Some PyNone
  ∧ ({[ "gym" := PyModule "gym"; "mujoco_py" := PyNone;
        "safety_gym" := PyNone ]} : gmap string pyobj) !! "gym"
    = ({[ "gym" := PyModule "gym" ]} : gmap string pyobj) !! "gym".
Proof.
  assert (module_imports no_safety_gym {[ "gym" := PyModule "gym" ]}
          = (inr (), {[ "gym" := PyModule "gym"; "mujoco_py" := PyNone;
                        "safety_gym" := PyNone ]})) as Hload
    by (by vm_compute).
  split; [exact Hload|].
  destruct (module_imports_both_or_none no_safety_gym _ _ Hload)
    as [_ Hframe].
  split; [reflexivity|].
  apply Hframe; discriminate.
Defined.

(** A broken [mujoco_py] (its import raises a plain [Exception]) is not
    caught: the module does not load. *)
Example module_imports_broken_mujoco :
  module_imports broken_mujoco ∅ = (inl (OtherError "Exception"), ∅).
Proof. by vm_compute. Qed.

End MoreSamples.
